(** * Restaurant POS: the order / table / bill lifecycle of [main.py]

    The program is a Tkinter front end over an SQLite file with four
    tables ([tables], [menu], [orders], [sales]).  This development embeds
    the database helpers, the receipt generator and the button handlers of
    [POSApp] as functions over an explicit store, and proves the lifecycle
    properties of the specification about them.

    Modelling choices:
    - an SQL table is the list of its rows in rowid order; [INSERT] with an
      [AUTOINCREMENT] key appends a row whose id is one more than the
      table's sequence counter, [UPDATE ... WHERE] is a [map], [DELETE ...
      WHERE] a [filter], [SELECT ... WHERE ... ORDER BY id] a [filter]
      followed by a sort on the id;
    - Python [float] and SQLite [REAL] are IEEE binary64, the kernel's
      primitive [float]; Python [int] and SQLite [INTEGER] are [Z].  An
      [INTEGER] is 64-bit: table numbers and ids are read from the database
      and fit; the quantity comes from the Qty box, and the handler that
      binds it models sqlite3's OverflowError ([sqlite_int]);
    - a Tk variable holds a number or text that is no number, in which case
      its [get()] raises TclError ([None] in [qty_var] and [tax_var]);
    - [datetime.now()] is an input: every function that reads the clock
      takes the reading as an argument;
    - [messagebox] calls, and an exception that escapes a callback, are
      returned as a list of dialogs; the answer to [askyesno] and the widget
      selections are inputs of the handlers;
    - the PDF is the list of the cells written to it, numbers kept as
      numbers (the [%.2f] rendering is not modelled);
    - labels, tree views and list boxes are redrawn from the store after
      every handler; the handlers read nothing from them but the current
      selection, so they are not part of the state. *)

From Stdlib Require Import ZArith List String Ascii Bool Lia DecimalString Sorted.
From Stdlib Require Import Floats.
From Stdlib Require DecimalZ DecimalPos.
From Stdlib Require Import Permutation.
Import ListNotations.

Set Warnings "-inexact-float".

Local Open Scope string_scope.
Local Open Scope list_scope.
Local Open Scope Z_scope.

(** ** Data model: one record per SQL table of [init_db] *)

(** [tables (id, table_no UNIQUE, status DEFAULT 'free')] *)
Record table_row := mk_table {
  t_id : Z;
  t_table_no : Z;
  t_status : string
}.

(** [menu (id, name, price REAL, category)] *)
Record menu_row := mk_menu {
  m_id : Z;
  m_name : string;
  m_price : float;
  m_category : string
}.

(** [orders (id, table_no, item_id, item_name, qty, price REAL,
    status DEFAULT 'pending', timestamp)] *)
Record order_row := mk_order {
  o_id : Z;
  o_table_no : Z;
  o_item_id : Z;
  o_item_name : string;
  o_qty : Z;
  o_price : float;
  o_status : string;
  o_timestamp : string
}.

(** [sales (id, table_no, total REAL, date, receipt_file)] *)
Record sale_row := mk_sale {
  s_id : Z;
  s_table_no : Z;
  s_total : float;
  s_date : string;
  s_receipt_file : string
}.

(** The database file: the four tables and the [sqlite_sequence] counter
    that [AUTOINCREMENT] keeps for each of them. *)
Record database := mk_db {
  tables : list table_row;
  menu : list menu_row;
  orders : list order_row;
  sales : list sale_row;
  seq_tables : Z;
  seq_menu : Z;
  seq_orders : Z;
  seq_sales : Z
}.

(** The database right after the four [CREATE TABLE IF NOT EXISTS] on a
    fresh file. *)
Definition empty_db : database := mk_db [] [] [] [] 0 0 0 0.

(** A reading of [datetime.now()], with the three renderings the program
    takes of it. *)
Record datetime := mk_datetime {
  dt_timestamp : Z;      (* int(now.timestamp()) *)
  dt_isoformat : string; (* now.isoformat() *)
  dt_strftime : string   (* now.strftime("%Y-%m-%d %H:%M:%S") *)
}.

(** ** SQL statements *)

Definition insert_table (table_no : Z) (status : string) (db : database) : database :=
  let id := seq_tables db + 1 in
  mk_db (tables db ++ [mk_table id table_no status]) (menu db) (orders db) (sales db)
        id (seq_menu db) (seq_orders db) (seq_sales db).

Definition insert_menu (item : string * float * string) (db : database) : database :=
  let '(name, price, category) := item in
  let id := seq_menu db + 1 in
  mk_db (tables db) (menu db ++ [mk_menu id name price category]) (orders db) (sales db)
        (seq_tables db) id (seq_orders db) (seq_sales db).

Definition insert_order (table_no item_id : Z) (item_name : string) (qty : Z)
    (price : float) (status ts : string) (db : database) : database :=
  let id := seq_orders db + 1 in
  mk_db (tables db) (menu db)
        (orders db ++ [mk_order id table_no item_id item_name qty price status ts])
        (sales db)
        (seq_tables db) (seq_menu db) id (seq_sales db).

Definition insert_sale (table_no : Z) (total : float) (date receipt_file : string)
    (db : database) : database :=
  let id := seq_sales db + 1 in
  mk_db (tables db) (menu db) (orders db)
        (sales db ++ [mk_sale id table_no total date receipt_file])
        (seq_tables db) (seq_menu db) (seq_orders db) id.

Definition with_tables (ts : list table_row) (db : database) : database :=
  mk_db ts (menu db) (orders db) (sales db)
        (seq_tables db) (seq_menu db) (seq_orders db) (seq_sales db).

Definition with_orders (os : list order_row) (db : database) : database :=
  mk_db (tables db) (menu db) os (sales db)
        (seq_tables db) (seq_menu db) (seq_orders db) (seq_sales db).

(** [SET status = ?] on a row of [orders]. *)
Definition with_status (status : string) (o : order_row) : order_row :=
  mk_order (o_id o) (o_table_no o) (o_item_id o) (o_item_name o)
           (o_qty o) (o_price o) status (o_timestamp o).

(** [SET status = ?] on a row of [tables]. *)
Definition with_table_status (status : string) (r : table_row) : table_row :=
  mk_table (t_id r) (t_table_no r) status.

(** [ORDER BY id]: a stable insertion sort on the id column. *)
Fixpoint insert_by_id (o : order_row) (l : list order_row) : list order_row :=
  match l with
  | [] => [o]
  | x :: l' => if o_id o <=? o_id x then o :: l else x :: insert_by_id o l'
  end.

Definition order_by_id (l : list order_row) : list order_row :=
  fold_right insert_by_id [] l.

(** [WHERE table_no = ?] on [orders]. *)
Definition orders_where_table (table_no : Z) (db : database) : list order_row :=
  filter (fun o => o_table_no o =? table_no) (orders db).

(** ** Startup: [init_db] *)

Definition sample_menu : list (string * float * string) :=
  [ ("Margherita Pizza", 8.50%float, "Pizza");
    ("Farmhouse Pizza", 9.50%float, "Pizza");
    ("Veg Burger", 5.00%float, "Burger");
    ("Chicken Burger", 6.50%float, "Burger");
    ("Pasta Alfredo", 7.50%float, "Pasta");
    ("Coke", 1.50%float, "Beverage");
    ("Orange Juice", 2.00%float, "Beverage");
    ("French Fries", 3.00%float, "Sides");
    ("Caesar Salad", 4.50%float, "Salad") ].

(** [range(1, 9)] *)
Definition default_table_numbers : list Z := map Z.of_nat (seq 1 8).

Definition init_db (db : database) : database :=
  let count := Z.of_nat (List.length (tables db)) in
  let db1 :=
    if count =? 0
    then fold_left (fun d t => insert_table t "free" d) default_table_numbers db
    else db in
  let mcount := Z.of_nat (List.length (menu db1)) in
  if mcount =? 0
  then fold_left (fun d item => insert_menu item d) sample_menu db1
  else db1.

(** ** DB helper functions *)

Definition set_table_status (table_no : Z) (status : string) (db : database) : database :=
  with_tables
    (map (fun r => if t_table_no r =? table_no then with_table_status status r else r)
         (tables db))
    db.

(** sqlite3 binds a Python [int] only when it fits a signed 64-bit integer;
    otherwise [execute] raises OverflowError before anything is written. *)
Definition sqlite_int (z : Z) : bool := (- 2 ^ 63 <=? z) && (z <? 2 ^ 63).

(** The store after [add_order_item], for parameters sqlite3 binds.  The
    caller, [add_selected_item_to_order], checks the one parameter that can
    fail to bind, the quantity. *)
Definition add_order_item (table_no item_id : Z) (item_name : string) (qty : Z)
    (price : float) (now : datetime) (db : database) : database :=
  let ts := dt_isoformat now in
  let db1 := insert_order table_no item_id item_name qty price "pending" ts db in
  set_table_status table_no "occupied" db1.

(** Rows come back as the tuples [(id, item_name, qty, price, status)]. *)
Definition get_orders_for_table (table_no : Z) (db : database)
    : list (Z * string * Z * float * string) :=
  map (fun o => (o_id o, o_item_name o, o_qty o, o_price o, o_status o))
      (order_by_id (orders_where_table table_no db)).

Definition mark_order_prepared (order_id : Z) (db : database) : database :=
  with_orders
    (map (fun o => if o_id o =? order_id then with_status "prepared" o else o)
         (orders db))
    db.

Definition delete_orders_for_table (table_no : Z) (db : database) : database :=
  with_orders (filter (fun o => negb (o_table_no o =? table_no)) (orders db)) db.

Definition complete_bill_and_save (table_no : Z) (total : float) (receipt_file : string)
    (now : datetime) (db : database) : database :=
  let date := dt_strftime now in
  let db1 := insert_sale table_no total date receipt_file db in
  let db2 := delete_orders_for_table table_no db1 in
  set_table_status table_no "free" db2.

(** The statement inlined in [remove_selected_order_item]:
    [DELETE FROM orders WHERE id=?]. *)
Definition delete_order (oid : Z) (db : database) : database :=
  with_orders (filter (fun o => negb (o_id o =? oid)) (orders db)) db.

(** ** Numbers and text *)

(** Python's conversion of an [int] to a [float] when it meets a float in
    [qty * price]: the nearest binary64 value, ties to even.  (Python raises
    OverflowError from 2^1024 on, far outside an [INTEGER] column.) *)
Definition float_of_int (z : Z) : float :=
  SF2Prim (binary_normalize prec emax z 0 false).

(** [str(n)] and [f"{n}"] of an [int]. *)
Definition str_int (z : Z) : string := NilZero.string_of_int (Z.to_int z).

Definition newline : string := String (ascii_of_nat 10) EmptyString.

(** ** PDF receipt generation *)

(** What a [pdf.cell] call writes.  Numbers are kept as numbers. *)
Inductive cell :=
| cell_text (txt : string)
| cell_int (n : Z)            (* str(qty) *)
| cell_money (x : float)      (* f"{x:.2f}" *)
| cell_tax_label (p : float). (* f"Tax ({p:.1f}%)" *)

Definition pdf := list cell.

(** The [receipts/] directory: file name and content, latest write first. *)
Definition filesystem := list (string * pdf).

Definition write_file (filename : string) (doc : pdf) (fs : filesystem) : filesystem :=
  (filename, doc) :: filter (fun e => negb (fst e =? filename)%string) fs.

(** A receipt line [(name, qty, price, total_line)]. *)
Definition receipt_item : Type := string * Z * float * float.

(** The body of the [for name, qty, price, line_total in items] loop: the
    four cells of the row, and the running [total_amount]. *)
Definition receipt_row (acc : pdf * float) (it : receipt_item) : pdf * float :=
  let '(doc, total_amount) := acc in
  let '(name, qty, price, line_total) := it in
  (doc ++ [cell_text name; cell_int qty; cell_money price; cell_money line_total],
   (total_amount + line_total)%float).

Definition generate_receipt_pdf (table_no : Z) (items : list receipt_item)
    (subtotal tax_percent : float) (now_invoice now_date : datetime)
    (fs : filesystem) : (string * float) * filesystem :=
  let invoice_no := dt_timestamp now_invoice in
  let filename :=
    ("receipts/receipt_table" ++ str_int table_no ++ "_" ++ str_int invoice_no ++ ".pdf")%string in
  let header :=
    [ cell_text ("Restaurant Receipt - Table " ++ str_int table_no)%string;
      cell_text ("Date: " ++ dt_strftime now_date)%string;
      cell_text "Item"; cell_text "Qty"; cell_text "Price"; cell_text "Total" ] in
  let '(doc, total_amount) := fold_left receipt_row items (header, 0.0%float) in
  let doc := doc ++ [cell_text "Subtotal"; cell_money subtotal] in
  let tax := (subtotal * tax_percent / 100.0)%float in
  let doc := doc ++ [cell_tax_label tax_percent; cell_money tax] in
  let grand_total := (subtotal + tax)%float in
  let doc := doc ++ [cell_text "Grand Total"; cell_money grand_total] in
  let doc := doc ++ [cell_text "Thank you for dining with us!"] in
  ((filename, grand_total), write_file filename doc fs).

(** ** The application: [POSApp] *)

Inductive dialog :=
| showerror (title message : string)
| showinfo (title message : string)
| askyesno (title message : string)
| callback_exception (name : string). (* an exception escaping a Tk callback *)

(** The fields of [POSApp] the handlers read and write.  [menu_items] is the
    dict [id -> (name, price, category)], used through lookups only.
    [qty_var] and [tax_var] are what [get()] returns for the Qty and the Tax
    box, [None] when the box holds text that is no number and [get()] raises
    TclError. *)
Record POSApp := mk_app {
  selected_table : option Z;
  menu_items : list (Z * (string * float * string));
  qty_var : option Z;
  tax_var : option float
}.

(** Everything a handler can touch. *)
Record world := mk_world {
  w_db : database;
  w_files : filesystem;
  w_app : POSApp
}.

Definition with_db (db : database) (w : world) : world :=
  mk_world db (w_files w) (w_app w).

Definition with_selected_table (sel : option Z) (app : POSApp) : POSApp :=
  mk_app sel (menu_items app) (qty_var app) (tax_var app).

(** [self.menu_items[item_id]] *)
Definition dict_get (item_id : Z) (d : list (Z * (string * float * string)))
    : option (string * float * string) :=
  option_map snd (find (fun kv => fst kv =? item_id) d).

(** [load_menu]: [{r[0]: (r[1], r[2], r[3]) for r in rows}].  The id is the
    primary key of [menu], so no key occurs twice.  The entries are kept in
    the order of the table, not in the order of [get_menu_items]; the
    handlers only look the dict up, and its lookups are proved below to be
    those of the dict built from [get_menu_items] ([dict_of_rows]). *)
Definition load_menu (db : database) : list (Z * (string * float * string)) :=
  map (fun r => (m_id r, (m_name r, m_price r, m_category r))) (menu db).

(** [POSApp.__init__] with the initial values of the Tk variables. *)
Definition POSApp_init (db : database) : POSApp :=
  mk_app None (load_menu db) (Some 1) (Some 5.0%float).

(** The body of the [for o in orders] loop of [refresh_order_view]: the row
    put in the order tree (price and line total kept as numbers) and the
    running subtotal. *)
Definition view_line (acc : list (Z * string * Z * float * float) * float)
    (o : Z * string * Z * float * string)
    : list (Z * string * Z * float * float) * float :=
  let '(rows, subtotal) := acc in
  let '(oid, item_name, qty, price, status) := o in
  let line_total := (float_of_int qty * price)%float in
  (rows ++ [(oid, item_name, qty, price, line_total)], (subtotal + line_total)%float).

(** [refresh_order_view]: the rows of the order tree, the Subtotal label and
    the Grand Total label.  The tree and the Subtotal are drawn first; then
    [tax_var.get()] is read: when it raises, the Grand Total label is not
    set ([None]) and the TclError leaves the method. *)
Definition refresh_order_view (w : world)
    : list (Z * string * Z * float * float) * float * option float :=
  let '(rows, subtotal) :=
    match selected_table (w_app w) with
    | None => ([], 0.0%float)
    | Some table_no =>
      fold_left view_line (get_orders_for_table table_no (w_db w)) ([], 0.0%float)
    end in
  match tax_var (w_app w) with
  | None => (rows, subtotal, None)
  | Some tax_percent =>
    let tax := (subtotal * (tax_percent / 100.0))%float in
    let grand := (subtotal + tax)%float in
    (rows, subtotal, Some grand)
  end.

(** What a handler's closing [self.refresh_order_view()] adds to the
    dialogs: the TclError, when it raises. *)
Definition after_refresh (w : world) : list dialog :=
  match snd (refresh_order_view w) with
  | None => [callback_exception "TclError"]
  | Some _ => []
  end.

Definition open_table (table_no : Z) (w : world) : world * list dialog :=
  let w' := mk_world (w_db w) (w_files w) (with_selected_table (Some table_no) (w_app w)) in
  (w', after_refresh w').

(** [sel] is the id written on the selected line of the menu listbox, [None]
    when [curselection()] is empty. *)
Definition add_selected_item_to_order (sel : option Z) (now : datetime) (w : world)
    : world * list dialog :=
  match selected_table (w_app w) with
  | None => (w, [showerror "No table selected" "Please select a table first."])
  | Some table_no =>
    match sel with
    | None => (w, [showerror "No item selected" "Please select a menu item to add."])
    | Some item_id =>
      match dict_get item_id (menu_items (w_app w)) with
      | None => (w, [callback_exception "KeyError"])
      | Some (name, price, cat) =>
        match qty_var (w_app w) with
        | None => (w, [callback_exception "TclError"])
        | Some value =>
          let qty := if value =? 0 then 1 else value in
          if sqlite_int qty
          then
            let w' :=
              with_db (add_order_item table_no item_id name qty price now (w_db w)) w in
            (w', after_refresh w')
          else (w, [callback_exception "OverflowError"])
        end
      end
    end
  end.

(** [selected] is the id column of the selected row of the order tree. *)
Definition remove_selected_order_item (selected : option Z) (w : world)
    : world * list dialog :=
  match selected with
  | None => (w, [showerror "No selection" "Please select an order item to remove."])
  | Some oid =>
    let w' := with_db (delete_order oid (w_db w)) w in
    (w', after_refresh w')
  end.

Definition send_to_kitchen (w : world) : world * list dialog :=
  match selected_table (w_app w) with
  | None => (w, [showerror "No table" "Select a table first."])
  | Some table_no =>
    (w, [showinfo "Sent" ("Orders for table " ++ str_int table_no ++ " sent to kitchen.")%string])
  end.

(** The body of the [for o in orders] loop of [print_bill]. *)
Definition bill_line (acc : list receipt_item * float)
    (o : Z * string * Z * float * string) : list receipt_item * float :=
  let '(items_for_receipt, subtotal) := acc in
  let '(oid, item_name, qty, price, status) := o in
  let line_total := (float_of_int qty * price)%float in
  (items_for_receipt ++ [(item_name, qty, price, line_total)],
   (subtotal + line_total)%float).

Definition print_bill (now_invoice now_date now_sale : datetime) (w : world)
    : world * list dialog :=
  match selected_table (w_app w) with
  | None => (w, [showerror "No table selected" "Please select a table."])
  | Some table_no =>
    match get_orders_for_table table_no (w_db w) with
    | [] => (w, [showerror "No orders" "No orders for this table to bill."])
    | orders =>
      let '(items_for_receipt, subtotal) := fold_left bill_line orders ([], 0.0%float) in
      match tax_var (w_app w) with
      | None => (w, [callback_exception "TclError"])
      | Some tax_percent =>
        let '((receipt_file, grand_total), fs) :=
          generate_receipt_pdf table_no items_for_receipt subtotal tax_percent
                               now_invoice now_date (w_files w) in
        let db := complete_bill_and_save table_no grand_total receipt_file now_sale (w_db w) in
        let w' := mk_world db fs (with_selected_table None (w_app w)) in
        (w',
         [showinfo "Billed" ("Bill printed and saved to:" ++ newline ++ receipt_file)%string]
         ++ after_refresh w')
      end
    end
  end.

(** [confirm] is the answer to the [askyesno] dialog. *)
Definition free_table (confirm : bool) (w : world) : world * list dialog :=
  match selected_table (w_app w) with
  | None => (w, [showerror "No table selected" "Select a table first."])
  | Some table_no =>
    let ask := askyesno "Confirm"
      ("Are you sure you want to free Table " ++ str_int table_no
       ++ "? This will remove all orders.")%string in
    if confirm
    then
      let db := set_table_status table_no "free" (delete_orders_for_table table_no (w_db w)) in
      let w' := mk_world db (w_files w) (with_selected_table None (w_app w)) in
      (w', [ask] ++ after_refresh w')
    else (w, [ask])
  end.

(** [mark_prepared] of the kitchen screen; [sel] is the Order ID column of
    the selected row. *)
Definition mark_prepared (sel : option Z) (w : world) : world * list dialog :=
  match sel with
  | None => (w, [showerror "No selection" "Select an order to mark prepared."])
  | Some oid => (with_db (mark_order_prepared oid (w_db w)) w, [])
  end.

(** ** Events of the event loop *)

Inductive event :=
| ev_open_table (table_no : Z)            (* a table button *)
| ev_set_qty (qty : Z)                    (* the Qty spinbox *)
| ev_set_tax (tax_percent : float)        (* the Tax (%) spinbox *)
| ev_add_selected (sel : option Z) (now : datetime)
| ev_remove_selected (selected : option Z)
| ev_send_to_kitchen
| ev_print_bill (now_invoice now_date now_sale : datetime)
| ev_free_table (confirm : bool)
| ev_mark_prepared (sel : option Z)
| ev_refresh                              (* Refresh Tables, Refresh of the kitchen screen *)
| ev_open_kitchen_screen
| ev_open_sales_report
| ev_qty_no_number                        (* text that is no number typed in the Qty box *)
| ev_tax_no_number.                       (* text that is no number typed in the Tax box *)

Definition handle (e : event) (w : world) : world * list dialog :=
  match e with
  | ev_open_table table_no => open_table table_no w
  | ev_set_qty qty =>
    (mk_world (w_db w) (w_files w)
              (mk_app (selected_table (w_app w)) (menu_items (w_app w)) (Some qty)
                      (tax_var (w_app w))),
     [])
  | ev_set_tax tax_percent =>
    (mk_world (w_db w) (w_files w)
              (mk_app (selected_table (w_app w)) (menu_items (w_app w)) (qty_var (w_app w))
                      (Some tax_percent)),
     [])
  | ev_qty_no_number =>
    (mk_world (w_db w) (w_files w)
              (mk_app (selected_table (w_app w)) (menu_items (w_app w)) None
                      (tax_var (w_app w))),
     [])
  | ev_tax_no_number =>
    (mk_world (w_db w) (w_files w)
              (mk_app (selected_table (w_app w)) (menu_items (w_app w)) (qty_var (w_app w))
                      None),
     [])
  | ev_add_selected sel now => add_selected_item_to_order sel now w
  | ev_remove_selected selected => remove_selected_order_item selected w
  | ev_send_to_kitchen => send_to_kitchen w
  | ev_print_bill now_invoice now_date now_sale => print_bill now_invoice now_date now_sale w
  | ev_free_table confirm => free_table confirm w
  | ev_mark_prepared sel => mark_prepared sel w
  (* [render_tables], [load_pending], [open_kitchen_screen] and
     [open_sales_report] only SELECT and draw *)
  | ev_refresh | ev_open_kitchen_screen | ev_open_sales_report => (w, [])
  end.

(** The event loop on a list of events. *)
Definition mainloop (es : list event) (w : world) : world :=
  fold_left (fun w e => fst (handle e w)) es w.

(** The program started on a fresh database file and an empty [receipts/]. *)
Definition startup : world :=
  let db := init_db empty_db in
  mk_world db [] (POSApp_init db).

(** ** The lifecycle operations on the store *)

(** The store effect of [free_table] once confirmed. *)
Definition free_table_store (table_no : Z) (db : database) : database :=
  set_table_status table_no "free" (delete_orders_for_table table_no db).

Inductive operation :=
| AddItem (table_no item_id : Z) (item_name : string) (qty : Z) (price : float) (now : datetime)
| RemoveItem (oid : Z)
| MarkPrepared (oid : Z)
| CompleteBill (table_no : Z) (total : float) (receipt_file : string) (now : datetime)
| FreeTable (table_no : Z).

Definition apply_operation (op : operation) (db : database) : database :=
  match op with
  | AddItem table_no item_id item_name qty price now =>
    add_order_item table_no item_id item_name qty price now db
  | RemoveItem oid => delete_order oid db
  | MarkPrepared oid => mark_order_prepared oid db
  | CompleteBill table_no total receipt_file now =>
    complete_bill_and_save table_no total receipt_file now db
  | FreeTable table_no => free_table_store table_no db
  end.

Definition apply_operations (ops : list operation) (db : database) : database :=
  fold_left (fun d op => apply_operation op d) ops db.

(** The database states the operations produce from the seeded database. *)
Inductive reachable : database -> Prop :=
| reachable_init : reachable (init_db empty_db)
| reachable_step (op : operation) (db : database) :
    reachable db -> reachable (apply_operation op db).

(** The same for the whole application. *)
Inductive reachable_world : world -> Prop :=
| reachable_startup : reachable_world startup
| reachable_event (e : event) (w : world) :
    reachable_world w -> reachable_world (fst (handle e w)).

(** ** Properties stated by the specification *)

(** The number of order lines of a table, as the program counts them. *)
Definition order_line_count (table_no : Z) (db : database) : nat :=
  List.length (get_orders_for_table table_no db).

(** "occupied iff the table has at least one order line", for every table. *)
Definition occupied_iff_lines (db : database) : Prop :=
  forall r, In r (tables db) ->
    (t_status r = "occupied" <-> (0 < order_line_count (t_table_no r) db)%nat).

(** The half of it the program maintains. *)
Definition free_tables_have_no_lines (db : database) : Prop :=
  forall r, In r (tables db) ->
    (t_status r = "free" \/ t_status r = "occupied") /\
    (t_status r = "free" -> order_line_count (t_table_no r) db = 0%nat).

(** A clock reading used in the examples. *)
Definition noon : datetime :=
  mk_datetime 1730000000 "2026-11-03T12:00:00.000001" "2026-11-03 12:00:00".

(** Table 1 orders two Cokes, then the line is removed again. *)
Definition db_coke_removed : database :=
  apply_operations [AddItem 1 6 "Coke" 2 1.5%float noon; RemoveItem 1] (init_db empty_db).

(** [qty * price] of a row of [get_orders_for_table]. *)
Definition line_total (o : Z * string * Z * float * string) : float :=
  let '(oid, item_name, qty, price, status) := o in
  (float_of_int qty * price)%float.

(** The sum of a list of floats, added left to right from [0.0]. *)
Definition float_sum (xs : list float) : float :=
  fold_left PrimFloat.add xs 0.0%float.

(** The name [generate_receipt_pdf] gives the receipt file. *)
Definition receipt_filename (table_no : Z) (now_invoice : datetime) : string :=
  ("receipts/receipt_table" ++ str_int table_no ++ "_"
   ++ str_int (dt_timestamp now_invoice) ++ ".pdf")%string.

(** The closing cells of a receipt: subtotal, tax, grand total and thanks. *)
Definition totals_cells (subtotal tax_percent tax grand_total : float) : pdf :=
  [ cell_text "Subtotal"; cell_money subtotal;
    cell_tax_label tax_percent; cell_money tax;
    cell_text "Grand Total"; cell_money grand_total;
    cell_text "Thank you for dining with us!" ].

(** Table 1 is opened and two Cokes (menu id 6, 1.50 each) are added. *)
Definition world_two_cokes : world :=
  mainloop [ev_open_table 1; ev_set_qty 2; ev_add_selected (Some 6) noon] startup.

(** The sale an operation records, if any. *)
Definition sale_of (op : operation) (db : database) : list sale_row :=
  match op with
  | CompleteBill table_no total receipt_file now =>
    [mk_sale (seq_sales db + 1) table_no total (dt_strftime now) receipt_file]
  | _ => []
  end.

Definition is_complete_bill (op : operation) : bool :=
  match op with CompleteBill _ _ _ _ => true | _ => false end.

(** The billing actions among a list of operations. *)
Definition completed_bills (ops : list operation) : nat :=
  List.length (filter is_complete_bill ops).

(** The categories of the specification's sample menu. *)
Definition menu_categories : list string :=
  ["Pizza"; "Burger"; "Pasta"; "Beverage"; "Sides"; "Salad"].

(** Table 3 holds two order lines, table 4 one, and table 3 is selected. *)
Definition world_two_tables : world :=
  mainloop [ev_open_table 4; ev_add_selected (Some 1) noon;
            ev_open_table 3; ev_add_selected (Some 6) noon;
            ev_add_selected (Some 8) noon] startup.

Definition by_id (a b : order_row) : Prop := o_id a < o_id b.

(** The representation invariant of [orders]: rows lie in rowid order, with
    ids that grow strictly and stay below the sequence counter. *)
Definition orders_in_rowid_order (db : database) : Prop :=
  StronglySorted by_id (orders db) /\
  Forall (fun o => o_id o <= seq_orders db) (orders db).

(** ** Further queries and views of [main.py] *)

(** [ORDER BY table_no]: a stable insertion sort on the table number. *)
Fixpoint insert_by_table_no (r : table_row) (l : list table_row) : list table_row :=
  match l with
  | [] => [r]
  | x :: l' => if t_table_no r <=? t_table_no x then r :: l else x :: insert_by_table_no r l'
  end.

(** [SELECT table_no, status FROM tables ORDER BY table_no] *)
Definition get_tables (db : database) : list (Z * string) :=
  map (fun r => (t_table_no r, t_status r))
      (fold_right insert_by_table_no [] (tables db)).

(** [ORDER BY timestamp]: text is compared byte by byte.  The sort is
    stable; SQLite leaves the order of rows with equal timestamps open. *)
Fixpoint insert_by_timestamp (o : order_row) (l : list order_row) : list order_row :=
  match l with
  | [] => [o]
  | x :: l' =>
    if (o_timestamp o <=? o_timestamp x)%string then o :: l
    else x :: insert_by_timestamp o l'
  end.

(** [SELECT id, table_no, item_name, qty, price, timestamp FROM orders
    WHERE status='pending' ORDER BY timestamp]: the kitchen queue. *)
Definition get_pending_orders (db : database)
    : list (Z * Z * string * Z * float * string) :=
  map (fun o => (o_id o, o_table_no o, o_item_name o, o_qty o, o_price o, o_timestamp o))
      (fold_right insert_by_timestamp []
         (filter (fun o => (o_status o =? "pending")%string) (orders db))).

(** The rupee sign of the listbox lines, as its UTF-8 bytes. *)
Definition rupee : string :=
  String (ascii_of_nat 226) (String (ascii_of_nat 130) (String (ascii_of_nat 185) EmptyString)).

(** A line of the menu listbox, [f"{mid} - {name} ({cat}) - R{price:.2f}"]
    with the rupee sign for R.  [format_2f] stands for the [:.2f] rendering
    of a float. *)
Definition menu_line (format_2f : float -> string)
    (entry : Z * (string * float * string)) : string :=
  let '(mid, (name, price, cat)) := entry in
  (str_int mid ++ " - " ++ name ++ " (" ++ cat ++ ") - " ++ rupee ++ format_2f price)%string.

(** [populate_menu_listbox]: the lines inserted for the chosen category. *)
Definition populate_menu_listbox (format_2f : float -> string) (selected_cat : string)
    (menu_items : list (Z * (string * float * string))) : list string :=
  map (menu_line format_2f)
      (filter (fun entry =>
                 let '(mid, (name, price, cat)) := entry in
                 ((selected_cat =? "All") || (selected_cat =? cat))%string)
              menu_items).

(** [s.split(sep, 1)[0]] for a non-empty [sep]: the text before the first
    occurrence of [sep], all of [s] when there is none. *)
Fixpoint split_first (sep s : string) : string :=
  match s with
  | EmptyString => EmptyString
  | String c s' => if prefix sep s then EmptyString else String c (split_first sep s')
  end.

(** The characters [str] of an [int] is made of. *)
Definition is_int_char (c : ascii) : bool :=
  existsb (Ascii.eqb c) (list_ascii_of_string "-0123456789").

(** Table 1 has a 'prepared' Coke line and a 'pending' fries line, table 2 a
    'pending' burger line added a second earlier. *)
Definition db_kitchen : database :=
  apply_operations
    [AddItem 1 6 "Coke" 2 1.5%float
       (mk_datetime 1730000001 "2026-11-03T12:00:01.000001" "2026-11-03 12:00:01");
     AddItem 1 8 "French Fries" 1 3.0%float
       (mk_datetime 1730000002 "2026-11-03T12:00:02.000001" "2026-11-03 12:00:02");
     AddItem 2 3 "Veg Burger" 1 5.0%float noon;
     MarkPrepared 1]
    (init_db empty_db).

(** The table an operation is issued for; RemoveItem and MarkPrepared name
    an order line instead. *)
Definition target_table (op : operation) : option Z :=
  match op with
  | AddItem table_no _ _ _ _ _ => Some table_no
  | CompleteBill table_no _ _ _ => Some table_no
  | FreeTable table_no => Some table_no
  | RemoveItem _ | MarkPrepared _ => None
  end.

(** The first six cells of a receipt. *)
Definition receipt_header (table_no : Z) (now_date : datetime) : pdf :=
  [ cell_text ("Restaurant Receipt - Table " ++ str_int table_no)%string;
    cell_text ("Date: " ++ dt_strftime now_date)%string;
    cell_text "Item"; cell_text "Qty"; cell_text "Price"; cell_text "Total" ].

(** The four cells a receipt shows for an order line. *)
Definition receipt_line_cells (o : Z * string * Z * float * string) : pdf :=
  let '(oid, item_name, qty, price, status) := o in
  [cell_text item_name; cell_int qty; cell_money price; cell_money (line_total o)].

(** What the newest file of that name holds. *)
Definition read_file (filename : string) (fs : filesystem) : option pdf :=
  option_map snd (find (fun e => (fst e =? filename)%string) fs).

(** The four cells [generate_receipt_pdf] writes for an item. *)
Definition receipt_item_cells (it : receipt_item) : pdf :=
  let '(name, qty, price, line_total) := it in
  [cell_text name; cell_int qty; cell_money price; cell_money line_total].

(** The whole document [generate_receipt_pdf] writes. *)
Definition receipt_document (table_no : Z) (items : list receipt_item)
    (subtotal tax_percent : float) (now_date : datetime) : pdf :=
  receipt_header table_no now_date ++ flat_map receipt_item_cells items
  ++ totals_cells subtotal tax_percent (subtotal * tax_percent / 100.0)%float
       (subtotal + subtotal * tax_percent / 100.0)%float.

(** The row [refresh_order_view] shows for an order line. *)
Definition view_row (o : Z * string * Z * float * string)
    : Z * string * Z * float * float :=
  let '(oid, item_name, qty, price, status) := o in
  (oid, item_name, qty, price, line_total o).

(** Table 1 holds one Margherita Pizza (8.50) and the tax box is set to 47. *)
Definition world_pizza_tax47 : world :=
  mainloop [ev_open_table 1; ev_add_selected (Some 1) noon; ev_set_tax 47.0%float] startup.

(** [ORDER BY category, name]: rows are compared on the category first and
    on the name when the categories are equal, both byte by byte. *)
Definition menu_row_leb (a b : menu_row) : bool :=
  match String.compare (m_category a) (m_category b) with
  | Lt => true
  | Gt => false
  | Eq => (m_name a <=? m_name b)%string
  end.

Fixpoint insert_by_category_name (m : menu_row) (l : list menu_row) : list menu_row :=
  match l with
  | [] => [m]
  | x :: l' => if menu_row_leb m x then m :: l else x :: insert_by_category_name m l'
  end.

(** [SELECT id, name, price, category FROM menu ORDER BY category, name] *)
Definition get_menu_items (db : database) : list (Z * string * float * string) :=
  map (fun m => (m_id m, m_name m, m_price m, m_category m))
      (fold_right insert_by_category_name [] (menu db)).

(** [d[k] = v] on a dict kept in insertion order: an existing key keeps its
    place and takes the new value, a new key goes last. *)
Fixpoint dict_set (k : Z) (v : string * float * string)
    (d : list (Z * (string * float * string))) : list (Z * (string * float * string)) :=
  match d with
  | [] => [(k, v)]
  | (k', v') :: d' => if k' =? k then (k, v) :: d' else (k', v') :: dict_set k v d'
  end.

(** The dict comprehension of [load_menu],
    [{r[0]: (r[1], r[2], r[3]) for r in rows}], on the rows of
    [get_menu_items]. *)
Definition dict_of_rows (rows : list (Z * string * float * string))
    : list (Z * (string * float * string)) :=
  fold_left (fun d r => let '(id, name, price, category) := r in
                        dict_set id (name, price, category) d)
            rows [].

(** The grand total [print_bill] reaches when the table holds one line whose
    qty*price is [line_total]: the subtotal starts from 0.0 and
    [generate_receipt_pdf] adds subtotal*tax_percent/100. *)
Definition billed_total (line_total tax_percent : float) : float :=
  let subtotal := (0.0 + line_total)%float in
  (subtotal + subtotal * tax_percent / 100.0)%float.

(** The closed form of the specification, (qty*price)*(1+taxPercent/100),
    evaluated in binary64. *)
Definition closed_form_total (line_total tax_percent : float) : float :=
  (line_total * (1.0 + tax_percent / 100.0))%float.

(** [b] is [a] or one of the two binary64 numbers next to it on either side. *)
Definition within_two_ulps (a b : float) : bool :=
  existsb (PrimFloat.eqb b)
    [a; next_up a; next_up (next_up a); next_down a; next_down (next_down a)].

(** The values the Qty spinbox steps through, [from_=1, to=100]. *)
Definition spinner_quantities : list Z := map Z.of_nat (seq 1 100).

(** The values the Tax spinbox steps through, [from_=0, to=100, increment=0.5]. *)
Definition spinner_taxes : list float :=
  map (fun k => (float_of_int (Z.of_nat k) / 2.0)%float) (seq 0 201).

(** The prices of the seeded menu. *)
Definition menu_prices : list float :=
  map (fun item : string * float * string => snd (fst item)) sample_menu.

(** The billed total and the closed form compared on every price, quantity
    (as a float) and tax of the lists. *)
Definition totals_agree (prices quantities taxes : list float) : bool :=
  forallb (fun price =>
    forallb (fun qty =>
      forallb (fun tax_percent =>
        within_two_ulps (billed_total (qty * price) tax_percent)
                        (closed_form_total (qty * price) tax_percent))
        taxes)
      quantities)
    prices.

Definition spinner_totals_agree : bool :=
  totals_agree menu_prices (map float_of_int spinner_quantities) spinner_taxes.

(** A dialog that reports an error: an error box, or an exception that is
    not the TclError of a Tax box without a number. *)
Definition reports_error (d : dialog) (w : world) : Prop :=
  (exists title message, d = showerror title message) \/
  (exists name, d = callback_exception name /\
     (name <> "TclError" \/ exists tax_percent, tax_var (w_app w) = Some tax_percent)).

(** Table 1 holds two Cokes and 1e308 is typed in the Tax box. *)
Definition world_tax_1e308 : world :=
  mainloop [ev_open_table 1; ev_set_qty 2; ev_add_selected (Some 6) noon;
            ev_set_tax 1e308%float] startup.

(** Table 1 is selected and 2^63 is typed in the Qty box. *)
Definition world_qty_2_63 : world :=
  mainloop [ev_open_table 1; ev_set_qty (2 ^ 63)] startup.

(** * Proofs *)

(** ** Lists and [ORDER BY] *)

Lemma insert_by_id_length (o : order_row) (l : list order_row) :
  List.length (insert_by_id o l) = S (List.length l).
Proof.
  induction l as [|x l IH]; simpl; [reflexivity|].
  destruct (o_id o <=? o_id x); simpl; [reflexivity | now rewrite IH].
Qed.

Lemma order_by_id_length (l : list order_row) :
  List.length (order_by_id l) = List.length l.
Proof.
  induction l as [|x l IH]; simpl; [reflexivity|].
  now rewrite insert_by_id_length, IH.
Qed.

Lemma order_line_count_where (table_no : Z) (db : database) :
  order_line_count table_no db = List.length (orders_where_table table_no db).
Proof.
  unfold order_line_count, get_orders_for_table.
  now rewrite length_map, order_by_id_length.
Qed.

Lemma filter_nil_filter {A : Type} (f g : A -> bool) (l : list A) :
  filter g l = [] -> filter g (filter f l) = [].
Proof.
  induction l as [|x l IH]; simpl; [reflexivity|].
  destruct (g x) eqn:Hg; [discriminate|]. intro H.
  destruct (f x); simpl; [rewrite Hg|]; auto.
Qed.

Lemma filter_negb_same {A : Type} (f : A -> bool) (l : list A) :
  filter f (filter (fun x => negb (f x)) l) = [].
Proof.
  induction l as [|x l IH]; simpl; [reflexivity|].
  destruct (f x) eqn:Hf; simpl; [|rewrite Hf]; exact IH.
Qed.

Lemma filter_map_stable {A : Type} (g : A -> bool) (u : A -> A) (l : list A) :
  (forall x, g (u x) = g x) -> filter g (map u l) = map u (filter g l).
Proof.
  intro Hu. induction l as [|x l IH]; simpl; [reflexivity|].
  rewrite Hu. destruct (g x); simpl; now rewrite IH.
Qed.

(** ** The store effect of each helper, table by table *)

Lemma set_table_status_tables (table_no : Z) (status : string) (db : database) (r' : table_row) :
  In r' (tables (set_table_status table_no status db)) ->
  exists r, In r (tables db) /\ t_table_no r' = t_table_no r /\
    ((t_table_no r = table_no /\ t_status r' = status) \/
     (t_table_no r <> table_no /\ r' = r)).
Proof.
  simpl. rewrite in_map_iff. intros [r [Hr Hin]]. exists r. split; [exact Hin|].
  destruct (Z.eqb_spec (t_table_no r) table_no) as [He|Hne]; subst r'; simpl.
  - split; [reflexivity | left; now split].
  - split; [reflexivity | right; now split].
Qed.

Lemma add_order_item_orders table_no item_id item_name qty price now db :
  orders (add_order_item table_no item_id item_name qty price now db) =
  orders db ++ [mk_order (seq_orders db + 1) table_no item_id item_name qty price
                         "pending" (dt_isoformat now)].
Proof. reflexivity. Qed.

Lemma mark_order_prepared_where (oid table_no : Z) (db : database) :
  orders_where_table table_no db = [] ->
  orders_where_table table_no (mark_order_prepared oid db) = [].
Proof.
  unfold orders_where_table. simpl. intro H.
  rewrite filter_map_stable; [now rewrite H|].
  intro o. now destruct (o_id o =? oid).
Qed.

(** ** The table-status invariant *)

Lemma free_tables_init : free_tables_have_no_lines (init_db empty_db).
Proof.
  assert (Hseed : map t_status (tables (init_db empty_db))
                  = ["free"; "free"; "free"; "free"; "free"; "free"; "free"; "free"])
    by (vm_compute; reflexivity).
  intros r Hin. split.
  - left. apply (in_map t_status) in Hin. rewrite Hseed in Hin.
    repeat (destruct Hin as [Hin|Hin]; [now symmetry|]). contradiction.
  - intros _. vm_compute. reflexivity.
Qed.

Lemma free_tables_step (op : operation) (db : database) :
  free_tables_have_no_lines db -> free_tables_have_no_lines (apply_operation op db).
Proof.
  intros IH r' Hin. rewrite order_line_count_where, length_zero_iff_nil.
  assert (IH' : forall r, In r (tables db) ->
            (t_status r = "free" \/ t_status r = "occupied") /\
            (t_status r = "free" -> orders_where_table (t_table_no r) db = [])).
  { intros r Hr. destruct (IH r Hr) as [H1 H2]. split; [exact H1|].
    intro Hf. apply length_zero_iff_nil. rewrite <- order_line_count_where. auto. }
  clear IH. destruct op as [t item_id item_name qty price now | oid | oid | t total file now | t];
    simpl in Hin |- *.
  - (* AddItem *)
    apply set_table_status_tables in Hin.
    destruct Hin as [r [Hr [Hno [[Ht Hs] | [Ht ->]]]]].
    + split; [now right|]. rewrite Hs. discriminate.
    + destruct (IH' r Hr) as [H1 H2]. split; [exact H1|]. intro Hf.
      unfold orders_where_table. simpl.
      rewrite filter_app. simpl.
      destruct (Z.eqb_spec t (t_table_no r)) as [He|_]; [now symmetry in He|].
      rewrite app_nil_r. exact (H2 Hf).
  - (* RemoveItem *)
    destruct (IH' r' Hin) as [H1 H2]. split; [exact H1|]. intro Hf.
    unfold orders_where_table. simpl. apply filter_nil_filter. exact (H2 Hf).
  - (* MarkPrepared *)
    destruct (IH' r' Hin) as [H1 H2]. split; [exact H1|]. intro Hf.
    apply mark_order_prepared_where. exact (H2 Hf).
  - (* CompleteBill *)
    apply set_table_status_tables in Hin.
    destruct Hin as [r [Hr [Hno [[Ht Hs] | [Ht ->]]]]].
    + split; [now left|]. intros _. rewrite Hno, Ht.
      unfold orders_where_table. simpl.
      exact (filter_negb_same (fun o => o_table_no o =? t) (orders db)).
    + destruct (IH' r Hr) as [H1 H2]. split; [exact H1|]. intro Hf.
      unfold orders_where_table. simpl. apply filter_nil_filter. exact (H2 Hf).
  - (* FreeTable *)
    apply set_table_status_tables in Hin.
    destruct Hin as [r [Hr [Hno [[Ht Hs] | [Ht ->]]]]].
    + split; [now left|]. intros _. rewrite Hno, Ht.
      unfold orders_where_table. simpl.
      exact (filter_negb_same (fun o => o_table_no o =? t) (orders db)).
    + destruct (IH' r Hr) as [H1 H2]. split; [exact H1|]. intro Hf.
      unfold orders_where_table. simpl. apply filter_nil_filter. exact (H2 Hf).
Qed.

Lemma reachable_free_tables (db : database) :
  reachable db -> free_tables_have_no_lines db.
Proof.
  induction 1 as [|op db _ IH]; [exact free_tables_init | now apply free_tables_step].
Qed.

(** C1 (as amended).  In every database state the operations AddItem,
    RemoveItem, MarkPrepared, CompleteBill and FreeTable produce from the
    seeded database, every table is 'free' or 'occupied', a 'free' table has
    no order line, and a table with at least one order line is 'occupied'.
    The converse (an occupied table has a line) is not maintained. *)
Theorem free_table_has_no_order_lines :
  forall db, reachable db ->
  forall r, In r (tables db) ->
    (t_status r = "free" \/ t_status r = "occupied") /\
    (t_status r = "free" -> order_line_count (t_table_no r) db = 0%nat) /\
    ((0 < order_line_count (t_table_no r) db)%nat -> t_status r = "occupied").
Proof.
  intros db Hreach r Hin.
  destruct (reachable_free_tables db Hreach r Hin) as [Hst Hfree].
  repeat split; auto.
  intro Hpos. destruct Hst as [Hf|Ho]; [|exact Ho].
  rewrite (Hfree Hf) in Hpos. inversion Hpos.
Qed.

Lemma free_table_has_no_order_lines_witness :
  let db := apply_operations
              [AddItem 1 6 "Coke" 2 1.5%float noon;
               AddItem 2 3 "Veg Burger" 1 5.0%float noon;
               CompleteBill 1 3.15%float "receipts/receipt_table1_1730000000.pdf" noon]
              (init_db empty_db) in
  let r1 := mk_table 1 1 "free" in
  let r2 := mk_table 2 2 "occupied" in
  ((t_status r1 = "free" \/ t_status r1 = "occupied") /\
   (t_status r1 = "free" -> order_line_count (t_table_no r1) db = 0%nat) /\
   ((0 < order_line_count (t_table_no r1) db)%nat -> t_status r1 = "occupied")) /\
  ((t_status r2 = "free" \/ t_status r2 = "occupied") /\
   (t_status r2 = "free" -> order_line_count (t_table_no r2) db = 0%nat) /\
   ((0 < order_line_count (t_table_no r2) db)%nat -> t_status r2 = "occupied")).
Proof.
  assert (Hreach : reachable
            (apply_operations
               [AddItem 1 6 "Coke" 2 1.5%float noon;
                AddItem 2 3 "Veg Burger" 1 5.0%float noon;
                CompleteBill 1 3.15%float "receipts/receipt_table1_1730000000.pdf" noon]
               (init_db empty_db))).
  { unfold apply_operations. cbn [fold_left].
    do 3 apply reachable_step. exact reachable_init. }
  split.
  - apply (free_table_has_no_order_lines _ Hreach (mk_table 1 1 "free")).
    vm_compute. left. reflexivity.
  - apply (free_table_has_no_order_lines _ Hreach (mk_table 2 2 "occupied")).
    vm_compute. right. left. reflexivity.
Defined.

(** C1 (as stated) fails: after AddItem on table 1 and RemoveItem of that
    line, table 1 is still 'occupied' and has no order line. *)
Lemma occupied_table_without_lines :
  reachable db_coke_removed /\
  In (mk_table 1 1 "occupied") (tables db_coke_removed) /\
  order_line_count 1 db_coke_removed = 0%nat /\
  ~ occupied_iff_lines db_coke_removed.
Proof.
  split; [|split; [|split]].
  - unfold db_coke_removed, apply_operations. cbn [fold_left].
    do 2 apply reachable_step. exact reachable_init.
  - vm_compute. left. reflexivity.
  - vm_compute. reflexivity.
  - intro H. specialize (H (mk_table 1 1 "occupied")).
    assert (Hin : In (mk_table 1 1 "occupied") (tables db_coke_removed))
      by (vm_compute; left; reflexivity).
    destruct (H Hin) as [Hlines _]. specialize (Hlines eq_refl).
    vm_compute in Hlines. inversion Hlines.
Qed.

(** ** The receipt generator *)

Lemma generate_receipt_pdf_result table_no items subtotal tax_percent now_invoice now_date fs :
  let tax := (subtotal * tax_percent / 100.0)%float in
  let grand_total := (subtotal + tax)%float in
  fst (generate_receipt_pdf table_no items subtotal tax_percent now_invoice now_date fs)
    = (receipt_filename table_no now_invoice, grand_total) /\
  exists rows,
    snd (generate_receipt_pdf table_no items subtotal tax_percent now_invoice now_date fs)
      = write_file (receipt_filename table_no now_invoice)
                   (rows ++ totals_cells subtotal tax_percent tax grand_total) fs.
Proof.
  cbv zeta. unfold generate_receipt_pdf.
  destruct (fold_left receipt_row items _) as [doc total_amount].
  split; [reflexivity|]. exists doc. cbn [snd]. f_equal.
  unfold totals_cells. rewrite <- !app_assoc. reflexivity.
Qed.

(** ** [print_bill] *)

Lemma bill_line_subtotal rows items acc :
  snd (fold_left bill_line rows (items, acc))
    = fold_left PrimFloat.add (map line_total rows) acc.
Proof.
  revert items acc. induction rows as [|o rows IH]; intros items acc; [reflexivity|].
  destruct o as [[[[oid item_name] qty] price] status]. simpl. apply IH.
Qed.

(** The closing [refresh_order_view()] of a handler raises nothing when the
    Tax box holds a number. *)
Lemma after_refresh_number (w : world) (tax_percent : float) :
  tax_var (w_app w) = Some tax_percent -> after_refresh w = [].
Proof.
  intro Htax. unfold after_refresh, refresh_order_view. rewrite Htax.
  now destruct (match selected_table (w_app w) with None => _ | Some t => _ end).
Qed.

Lemma after_refresh_no_number (w : world) :
  tax_var (w_app w) = None -> after_refresh w = [callback_exception "TclError"].
Proof.
  intro Htax. unfold after_refresh, refresh_order_view. rewrite Htax.
  now destruct (match selected_table (w_app w) with None => _ | Some t => _ end).
Qed.

Lemma print_bill_billed now_invoice now_date now_sale w table_no tax_percent :
  selected_table (w_app w) = Some table_no ->
  get_orders_for_table table_no (w_db w) <> [] ->
  tax_var (w_app w) = Some tax_percent ->
  let rows := get_orders_for_table table_no (w_db w) in
  let subtotal := float_sum (map line_total rows) in
  let tax := (subtotal * tax_percent / 100.0)%float in
  let grand_total := (subtotal + tax)%float in
  let receipt_file := receipt_filename table_no now_invoice in
  exists cells,
    print_bill now_invoice now_date now_sale w =
      (mk_world (complete_bill_and_save table_no grand_total receipt_file now_sale (w_db w))
                (write_file receipt_file
                   (cells ++ totals_cells subtotal tax_percent tax grand_total)
                   (w_files w))
                (with_selected_table None (w_app w)),
       [showinfo "Billed" ("Bill printed and saved to:" ++ newline ++ receipt_file)%string]).
Proof.
  intros Hsel Hrows Htax. cbv zeta. unfold print_bill. rewrite Hsel, Htax.
  destruct (get_orders_for_table table_no (w_db w)) as [|o rows] eqn:Erows;
    [now contradiction Hrows|].
  pose proof (bill_line_subtotal (o :: rows) [] 0.0%float) as Hsub.
  destruct (fold_left bill_line (o :: rows) ([], 0.0%float)) as [items subtotal].
  cbn [snd] in Hsub. fold (float_sum (map line_total (o :: rows))) in Hsub. subst subtotal.
  destruct (generate_receipt_pdf_result table_no items
              (float_sum (map line_total (o :: rows))) tax_percent
              now_invoice now_date (w_files w)) as [Hfst [cells Hsnd]].
  destruct (generate_receipt_pdf _ _ _ _ _ _ _) as [[receipt_file grand_total] fs].
  cbn [fst snd] in Hfst, Hsnd. inversion Hfst; subst. exists cells.
  rewrite (after_refresh_number _ tax_percent) by exact Htax. reflexivity.
Qed.

(** With text that is no number in the Tax box, [tax_var.get()] raises before
    the receipt is written and before the sale is stored. *)
Lemma print_bill_no_number now_invoice now_date now_sale w table_no :
  selected_table (w_app w) = Some table_no ->
  get_orders_for_table table_no (w_db w) <> [] ->
  tax_var (w_app w) = None ->
  print_bill now_invoice now_date now_sale w = (w, [callback_exception "TclError"]).
Proof.
  intros Hsel Hrows Htax. unfold print_bill. rewrite Hsel, Htax.
  destruct (get_orders_for_table table_no (w_db w)) as [|o rows]; [now contradiction Hrows|].
  now destruct (fold_left bill_line (o :: rows) ([], 0.0%float)).
Qed.

Lemma print_bill_empty now_invoice now_date now_sale w table_no :
  selected_table (w_app w) = Some table_no ->
  get_orders_for_table table_no (w_db w) = [] ->
  print_bill now_invoice now_date now_sale w =
    (w, [showerror "No orders" "No orders for this table to bill."]).
Proof.
  intros Hsel Hrows. unfold print_bill. now rewrite Hsel, Hrows.
Qed.

(** ** Every handler acts on the store through the lifecycle operations *)

Lemma handle_store (e : event) (w : world) :
  w_db (fst (handle e w)) = w_db w \/
  exists op, w_db (fst (handle e w)) = apply_operation op (w_db w).
Proof.
  destruct e as [t | q | p | sel now | selected | | n1 n2 n3 | confirm | sel | | | | | ];
    simpl; try (now left).
  - unfold add_selected_item_to_order.
    destruct (selected_table (w_app w)) as [t|]; [|now left].
    destruct sel as [item_id|]; [|now left].
    destruct (dict_get item_id (menu_items (w_app w))) as [[[name price] cat]|]; [|now left].
    destruct (qty_var (w_app w)) as [value|]; [|now left].
    destruct (sqlite_int _); [|now left].
    right. eexists (AddItem t item_id name _ price now). reflexivity.
  - destruct selected as [oid|]; [|now left]. right. now exists (RemoveItem oid).
  - unfold send_to_kitchen. destruct (selected_table (w_app w)); now left.
  - destruct (selected_table (w_app w)) as [t|] eqn:Hsel;
      [|unfold print_bill; rewrite Hsel; now left].
    destruct (get_orders_for_table t (w_db w)) as [|o rows] eqn:Hrows.
    + rewrite (print_bill_empty n1 n2 n3 w t Hsel Hrows). now left.
    + assert (Hne : get_orders_for_table t (w_db w) <> []) by (rewrite Hrows; discriminate).
      destruct (tax_var (w_app w)) as [p|] eqn:Htax.
      * destruct (print_bill_billed n1 n2 n3 w t p Hsel Hne Htax) as [cells ->].
        right. eexists (CompleteBill t _ _ n3). reflexivity.
      * rewrite (print_bill_no_number n1 n2 n3 w t Hsel Hne Htax). now left.
  - unfold free_table. destruct (selected_table (w_app w)) as [t|]; [|now left].
    destruct confirm; [|now left]. right. now exists (FreeTable t).
  - destruct sel as [oid|]; [|now left]. right. now exists (MarkPrepared oid).
Qed.

Lemma reachable_world_store (w : world) : reachable_world w -> reachable (w_db w).
Proof.
  induction 1 as [|e w _ IH]; [exact reachable_init|].
  destruct (handle_store e w) as [-> | [op ->]]; [exact IH | now apply reachable_step].
Qed.

(** Whatever the user does, a free table shows no order line. *)
Lemma reachable_world_free_tables (w : world) :
  reachable_world w -> free_tables_have_no_lines (w_db w).
Proof. intro Hw. apply reachable_free_tables, reachable_world_store, Hw. Qed.

(** ** Bill totals *)

Lemma float_eqb_neq (x y : float) :
  PrimFloat.eqb x x = true -> PrimFloat.eqb x y = false -> x <> y.
Proof. intros Hx Hxy Heq. rewrite <- Heq, Hx in Hxy. discriminate. Qed.

Lemma get_orders_after_first_add table_no item_id item_name qty price now db :
  order_line_count table_no db = 0%nat ->
  get_orders_for_table table_no (add_order_item table_no item_id item_name qty price now db)
    = [(seq_orders db + 1, item_name, qty, price, "pending")].
Proof.
  rewrite order_line_count_where, length_zero_iff_nil. intro Hempty.
  unfold get_orders_for_table, orders_where_table in *.
  rewrite add_order_item_orders, filter_app, Hempty. simpl.
  now rewrite Z.eqb_refl.
Qed.

Lemma spinner_quantities_range (qty : Z) :
  1 <= qty <= 100 -> In qty spinner_quantities.
Proof.
  intro H. apply in_map_iff. exists (Z.to_nat qty).
  split; [lia | apply in_seq; lia].
Qed.

Lemma totals_agree_at (prices quantities taxes : list float) (price qty tax_percent : float) :
  totals_agree prices quantities taxes = true ->
  In price prices -> In qty quantities -> In tax_percent taxes ->
  within_two_ulps (billed_total (qty * price) tax_percent)
                  (closed_form_total (qty * price) tax_percent) = true.
Proof.
  unfold totals_agree. intros H Hp Hq Ht.
  rewrite forallb_forall in H. specialize (H price Hp).
  rewrite forallb_forall in H. specialize (H qty Hq).
  rewrite forallb_forall in H. exact (H tax_percent Ht).
Qed.

(** On every price of the seeded menu, every quantity 1..100 and every tax
    0, 0.5, .., 100, the billed total is the closed form or one of the two
    binary64 numbers next to it on either side. *)
Lemma spinner_totals_agree_true : spinner_totals_agree = true.
Proof. vm_compute. reflexivity. Qed.

(** C2 (as amended).  When the selected table has order lines and the Tax box
    holds the number taxPercent, [print_bill] bills subtotal = the sum, left
    to right from 0.0, of qty*price over the table's lines, tax =
    subtotal*taxPercent/100 and grandTotal = subtotal + tax, every operation
    being a binary64 operation: these are the figures on the receipt and
    grandTotal is the total of the sale.  After a single AddItem on a table
    without lines, grandTotal = s + s*taxPercent/100 with s = 0.0 +
    qty*price; for an item of the seeded menu, a quantity from 1 to 100 and
    a tax among 0, 0.5, .., 100 (what the spinboxes step through) it is
    within two binary64 numbers of (qty*price)*(1+taxPercent/100). *)
Theorem print_bill_totals :
  forall w table_no tax_percent now_invoice now_date now_sale,
  selected_table (w_app w) = Some table_no ->
  get_orders_for_table table_no (w_db w) <> [] ->
  tax_var (w_app w) = Some tax_percent ->
  let rows := get_orders_for_table table_no (w_db w) in
  let subtotal := float_sum (map line_total rows) in
  let tax := (subtotal * tax_percent / 100.0)%float in
  let grand_total := (subtotal + tax)%float in
  let receipt_file := receipt_filename table_no now_invoice in
  let w' := fst (print_bill now_invoice now_date now_sale w) in
  (exists cells,
     w_files w' = write_file receipt_file
                    (cells ++ totals_cells subtotal tax_percent tax grand_total)
                    (w_files w)) /\
  sales (w_db w') =
    sales (w_db w) ++ [mk_sale (seq_sales (w_db w) + 1) table_no grand_total
                               (dt_strftime now_sale) receipt_file] /\
  (forall db0 item_id item_name qty price now,
     order_line_count table_no db0 = 0%nat ->
     w_db w = add_order_item table_no item_id item_name qty price now db0 ->
     grand_total = billed_total (float_of_int qty * price) tax_percent /\
     (forall category,
        In (item_name, price, category) sample_menu ->
        1 <= qty <= 100 ->
        In tax_percent spinner_taxes ->
        within_two_ulps grand_total
          (closed_form_total (float_of_int qty * price) tax_percent) = true)).
Proof.
  intros w table_no tax_percent now_invoice now_date now_sale Hsel Hrows Htax. cbv zeta.
  destruct (print_bill_billed now_invoice now_date now_sale w table_no tax_percent
              Hsel Hrows Htax) as [cells ->].
  cbn [fst w_files w_db]. split; [now exists cells|]. split; [reflexivity|].
  intros db0 item_id item_name qty price now Hempty Hdb.
  rewrite Hdb, (get_orders_after_first_add _ _ _ _ _ _ _ Hempty).
  split; [reflexivity|].
  intros category Hitem Hqty Htaxes.
  change (within_two_ulps (billed_total (float_of_int qty * price) tax_percent)
            (closed_form_total (float_of_int qty * price) tax_percent) = true).
  apply (totals_agree_at menu_prices (map float_of_int spinner_quantities) spinner_taxes).
  - exact spinner_totals_agree_true.
  - apply in_map_iff. exists (item_name, price, category). now split.
  - apply in_map, spinner_quantities_range, Hqty.
  - exact Htaxes.
Qed.

Lemma print_bill_totals_witness :
  let w' := fst (print_bill noon noon noon world_two_cokes) in
  selected_table (w_app world_two_cokes) = Some 1 /\
  get_orders_for_table 1 (w_db world_two_cokes) = [(1, "Coke", 2, 1.5%float, "pending")] /\
  tax_var (w_app world_two_cokes) = Some 5.0%float /\
  sales (w_db w') =
    [mk_sale 1 1 3.15 "2026-11-03 12:00:00" "receipts/receipt_table1_1730000000.pdf"] /\
  (exists cells,
     w_files w' = [("receipts/receipt_table1_1730000000.pdf",
                    cells ++ totals_cells 3.0 5.0 0.15 3.15)]) /\
  within_two_ulps 3.15 (closed_form_total (float_of_int 2 * 1.5) 5.0) = true.
Proof.
  cbv zeta.
  assert (Hsel : selected_table (w_app world_two_cokes) = Some 1)
    by (vm_compute; reflexivity).
  assert (Hrows : get_orders_for_table 1 (w_db world_two_cokes) <> [])
    by (vm_compute; discriminate).
  assert (Htax : tax_var (w_app world_two_cokes) = Some 5.0%float)
    by (vm_compute; reflexivity).
  assert (Hempty : order_line_count 1 (w_db startup) = 0%nat)
    by (vm_compute; reflexivity).
  assert (Hdb : w_db world_two_cokes = add_order_item 1 6 "Coke" 2 1.5 noon (w_db startup))
    by (vm_compute; reflexivity).
  assert (Hitem : In ("Coke", 1.5%float, "Beverage") sample_menu)
    by (do 5 right; left; reflexivity).
  assert (Hqty : 1 <= 2 <= 100) by lia.
  assert (Htaxes : In 5.0%float spinner_taxes)
    by (apply in_map_iff; exists 10%nat; split; [vm_compute; reflexivity | apply in_seq; lia]).
  destruct (print_bill_totals world_two_cokes 1 5.0 noon noon noon Hsel Hrows Htax)
    as [[cells Hfiles] [Hsales Hone]].
  destruct (Hone (w_db startup) 6 "Coke" 2 1.5%float noon Hempty Hdb) as [_ Hclose].
  specialize (Hclose "Beverage" Hitem Hqty Htaxes).
  split; [exact Hsel|]. split; [vm_compute; reflexivity|]. split; [exact Htax|].
  split; [|split].
  - rewrite Hsales. vm_compute. reflexivity.
  - exists cells. rewrite Hfiles. vm_compute. reflexivity.
  - match type of Hclose with
    | within_two_ulps ?g _ = _ =>
      assert (Hg : g = 3.15%float) by (vm_compute; reflexivity); rewrite Hg in Hclose
    end.
    exact Hclose.
Defined.

(** C2 (as stated) fails for a taxPercent the Tax box accepts.  Two Cokes at
    1.50 on an empty table and 1e308 typed in the Tax box: subtotal*taxPercent
    overflows before the division by 100, so the program bills and stores
    the total [infinity], while (qty*price)*(1+taxPercent/100) is the finite
    number 3e306 (3e306 + 3 over the reals): no tolerance covers the
    difference. *)
Lemma grand_total_not_closed_form :
  let w' := fst (print_bill noon noon noon world_tax_1e308) in
  selected_table (w_app world_tax_1e308) = Some 1 /\
  tax_var (w_app world_tax_1e308) = Some 1e308%float /\
  order_line_count 1 (w_db startup) = 0%nat /\
  w_db world_tax_1e308 = add_order_item 1 6 "Coke" 2 1.5 noon (w_db startup) /\
  map s_total (sales (w_db w')) = [infinity] /\
  closed_form_total (float_of_int 2 * 1.5) 1e308 = 3.0000000000000002e306%float /\
  PrimFloat.ltb 3.0000000000000002e306 infinity = true /\
  within_two_ulps infinity 3.0000000000000002e306 = false.
Proof.
  cbv zeta. repeat apply conj; vm_compute; reflexivity.
Qed.

(** ** CompleteBill *)

Lemma filter_other_table (t t' : Z) (l : list order_row) :
  t' <> t ->
  filter (fun o => o_table_no o =? t') (filter (fun o => negb (o_table_no o =? t)) l)
    = filter (fun o => o_table_no o =? t') l.
Proof.
  intro Hne. induction l as [|o l IH]; simpl; [reflexivity|].
  destruct (Z.eqb_spec (o_table_no o) t) as [He|Hn]; simpl.
  - destruct (Z.eqb_spec (o_table_no o) t') as [He'|_]; [congruence | exact IH].
  - destruct (o_table_no o =? t'); now rewrite IH.
Qed.

Lemma table_status_after_set (table_no : Z) (status : string) (db : database) :
  (forall r, In r (tables db) -> t_table_no r = table_no ->
     In (with_table_status status r) (tables (set_table_status table_no status db))) /\
  (forall r', In r' (tables (set_table_status table_no status db)) ->
     t_table_no r' = table_no -> t_status r' = status) /\
  (forall r, t_table_no r <> table_no ->
     (In r (tables (set_table_status table_no status db)) <-> In r (tables db))) /\
  map t_table_no (tables (set_table_status table_no status db)) = map t_table_no (tables db).
Proof.
  repeat apply conj.
  - intros r Hin Ht. simpl. apply in_map_iff. exists r. split; [|exact Hin].
    rewrite Ht. now rewrite Z.eqb_refl.
  - intros r' Hin Ht. apply set_table_status_tables in Hin.
    destruct Hin as [r [_ [Hno [[_ Hs] | [Hne _]]]]]; [exact Hs | congruence].
  - intros r Hne. split; intro Hin.
    + apply set_table_status_tables in Hin.
      destruct Hin as [r0 [Hr0 [Hno [[Ht _] | [_ ->]]]]]; [congruence | exact Hr0].
    + simpl. apply in_map_iff. exists r. split; [|exact Hin].
      destruct (Z.eqb_spec (t_table_no r) table_no); [contradiction | reflexivity].
  - simpl. rewrite map_map. apply map_ext. intro r.
    now destruct (t_table_no r =? table_no).
Qed.

(** C3.  [complete_bill_and_save] appends exactly one Sale record (for the
    given table, total and receipt file), deletes every order line of the
    table and no other, and sets the status of the table to 'free': after it
    the table is 'free' and has no order line, however many it had. *)
Theorem complete_bill_and_save_effect :
  forall db table_no total receipt_file now,
  let db' := complete_bill_and_save table_no total receipt_file now db in
  sales db' = sales db ++
    [mk_sale (seq_sales db + 1) table_no total (dt_strftime now) receipt_file] /\
  List.length (sales db') = S (List.length (sales db)) /\
  orders db' = filter (fun o => negb (o_table_no o =? table_no)) (orders db) /\
  (forall o, In o (orders db') <-> In o (orders db) /\ o_table_no o <> table_no) /\
  order_line_count table_no db' = 0%nat /\
  (forall r, In r (tables db) -> t_table_no r = table_no ->
     In (with_table_status "free" r) (tables db')) /\
  (forall r', In r' (tables db') -> t_table_no r' = table_no -> t_status r' = "free") /\
  (forall r, t_table_no r <> table_no -> (In r (tables db') <-> In r (tables db))) /\
  map t_table_no (tables db') = map t_table_no (tables db).
Proof.
  intros db table_no total receipt_file now. cbv zeta.
  split; [reflexivity|]. split; [simpl; rewrite length_app; simpl; lia|].
  split; [reflexivity|]. split.
  { intro o. simpl. rewrite filter_In, negb_true_iff, Z.eqb_neq. reflexivity. }
  split.
  { rewrite order_line_count_where. apply length_zero_iff_nil.
    unfold orders_where_table. simpl.
    exact (filter_negb_same (fun o => o_table_no o =? table_no) (orders db)). }
  unfold complete_bill_and_save.
  exact (table_status_after_set table_no "free"
           (delete_orders_for_table table_no
              (insert_sale table_no total (dt_strftime now) receipt_file db))).
Qed.

(** ** AddItem *)

Lemma sqlite_int_range (z : Z) : - 2 ^ 63 <= z < 2 ^ 63 -> sqlite_int z = true.
Proof.
  intro H. unfold sqlite_int. apply andb_true_intro.
  split; [apply Z.leb_le | apply Z.ltb_lt]; lia.
Qed.

Lemma add_selected_item_to_order_adds w table_no item_id name price cat value now :
  selected_table (w_app w) = Some table_no ->
  dict_get item_id (menu_items (w_app w)) = Some (name, price, cat) ->
  qty_var (w_app w) = Some value ->
  sqlite_int (if value =? 0 then 1 else value) = true ->
  fst (add_selected_item_to_order (Some item_id) now w) =
    with_db (add_order_item table_no item_id name
               (if value =? 0 then 1 else value) price now (w_db w)) w.
Proof.
  intros Hsel Hitem Hqty Hint. unfold add_selected_item_to_order.
  now rewrite Hsel, Hitem, Hqty, Hint.
Qed.

(** C4 (as amended).  With a table selected, a menu item chosen and a
    quantity from 1 to 2^63 - 1 in the Qty box, [add_selected_item_to_order]
    appends one order line with that quantity, status 'pending' and the
    current timestamp, leaves the existing lines as they are and sets the
    table to 'occupied'.  Adding the same item again appends a second line
    with its own id: the quantities are never merged. *)
Theorem add_selected_item_appends_line :
  forall w table_no item_id name price cat qty now,
  selected_table (w_app w) = Some table_no ->
  dict_get item_id (menu_items (w_app w)) = Some (name, price, cat) ->
  qty_var (w_app w) = Some qty ->
  1 <= qty ->
  qty < 2 ^ 63 ->
  let w1 := fst (add_selected_item_to_order (Some item_id) now w) in
  let line := mk_order (seq_orders (w_db w) + 1) table_no item_id name qty price
                       "pending" (dt_isoformat now) in
  orders (w_db w1) = orders (w_db w) ++ [line] /\
  (forall r, In r (tables (w_db w)) -> t_table_no r = table_no ->
     In (with_table_status "occupied" r) (tables (w_db w1))) /\
  (forall r', In r' (tables (w_db w1)) -> t_table_no r' = table_no ->
     t_status r' = "occupied") /\
  sales (w_db w1) = sales (w_db w) /\
  forall now2,
    let w2 := fst (add_selected_item_to_order (Some item_id) now2 w1) in
    let line2 := mk_order (seq_orders (w_db w) + 2) table_no item_id name qty price
                          "pending" (dt_isoformat now2) in
    orders (w_db w2) = orders (w_db w) ++ [line; line2] /\
    o_id line <> o_id line2 /\
    order_line_count table_no (w_db w2) = (2 + order_line_count table_no (w_db w))%nat.
Proof.
  intros w table_no item_id name price cat qty now Hsel Hitem Hqty Hpos Hmax. cbv zeta.
  assert (Hq : (if qty =? 0 then 1 else qty) = qty)
    by (destruct (Z.eqb_spec qty 0); [lia | reflexivity]).
  assert (Hint : sqlite_int (if qty =? 0 then 1 else qty) = true)
    by (rewrite Hq; apply sqlite_int_range; lia).
  rewrite (add_selected_item_to_order_adds w table_no item_id name price cat qty now
             Hsel Hitem Hqty Hint).
  rewrite Hq.
  split; [reflexivity|].
  split; [apply (table_status_after_set table_no "occupied")|].
  split; [apply (table_status_after_set table_no "occupied")|].
  split; [reflexivity|].
  intro now2.
  rewrite (add_selected_item_to_order_adds
             (with_db (add_order_item table_no item_id name qty price now (w_db w)) w)
             table_no item_id name price cat qty now2 Hsel Hitem Hqty Hint).
  cbn [w_db w_app with_db]. rewrite Hq.
  split; [|split].
  - rewrite !add_order_item_orders, <- app_assoc. simpl.
    now replace (seq_orders (w_db w) + 1 + 1) with (seq_orders (w_db w) + 2) by lia.
  - simpl. lia.
  - rewrite !order_line_count_where. unfold orders_where_table.
    rewrite !add_order_item_orders, !filter_app. simpl.
    rewrite Z.eqb_refl. rewrite !length_app. simpl. lia.
Qed.

Lemma add_selected_item_appends_line_witness :
  let w := mainloop [ev_open_table 1; ev_set_qty 2] startup in
  let w1 := fst (add_selected_item_to_order (Some 6) noon w) in
  let w2 := fst (add_selected_item_to_order (Some 6) noon w1) in
  orders (w_db w1) = [mk_order 1 1 6 "Coke" 2 1.5 "pending" (dt_isoformat noon)] /\
  orders (w_db w2) = [mk_order 1 1 6 "Coke" 2 1.5 "pending" (dt_isoformat noon);
                      mk_order 2 1 6 "Coke" 2 1.5 "pending" (dt_isoformat noon)] /\
  order_line_count 1 (w_db w2) = 2%nat /\
  In (mk_table 1 1 "occupied") (tables (w_db w1)).
Proof.
  cbv zeta.
  destruct (add_selected_item_appends_line
              (mainloop [ev_open_table 1; ev_set_qty 2] startup)
              1 6 "Coke" 1.5%float "Beverage" 2 noon)
    as [Hone [Hocc [_ [_ Htwo]]]].
  - vm_compute. reflexivity.
  - vm_compute. reflexivity.
  - vm_compute. reflexivity.
  - lia.
  - vm_compute. reflexivity.
  - destruct (Htwo noon) as [Horders [_ Hcount]].
    split; [rewrite Hone; vm_compute; reflexivity|].
    split; [rewrite Horders; vm_compute; reflexivity|].
    split; [rewrite Hcount; vm_compute; reflexivity|].
    apply (Hocc (mk_table 1 1 "free")); [|reflexivity].
    vm_compute. left. reflexivity.
Defined.

(** C4 (as stated) fails for a quantity the Qty box accepts.  Table 1 is
    selected, Coke is chosen and 2^63 is typed in the Qty box: the INSERT of
    [add_order_item] raises OverflowError, no order line is written and
    table 1 stays 'free'. *)
Lemma quantity_beyond_sqlite_integer :
  let w := world_qty_2_63 in
  let r := add_selected_item_to_order (Some 6) noon w in
  selected_table (w_app w) = Some 1 /\
  dict_get 6 (menu_items (w_app w)) = Some ("Coke", 1.5%float, "Beverage") /\
  qty_var (w_app w) = Some (2 ^ 63) /\
  1 <= 2 ^ 63 /\
  r = (w, [callback_exception "OverflowError"]) /\
  orders (w_db (fst r)) = [] /\
  In (mk_table 1 1 "free") (tables (w_db (fst r))).
Proof.
  cbv zeta. repeat apply conj.
  - vm_compute. reflexivity.
  - vm_compute. reflexivity.
  - vm_compute. reflexivity.
  - lia.
  - vm_compute. reflexivity.
  - vm_compute. reflexivity.
  - vm_compute. left. reflexivity.
Qed.

(** ** FreeTable *)

Lemma free_table_confirmed w table_no :
  selected_table (w_app w) = Some table_no ->
  w_db (fst (free_table true w)) = free_table_store table_no (w_db w) /\
  w_files (fst (free_table true w)) = w_files w.
Proof. intro Hsel. unfold free_table. now rewrite Hsel. Qed.

Lemma free_table_sales confirm w :
  sales (w_db (fst (free_table confirm w))) = sales (w_db w) /\
  w_files (fst (free_table confirm w)) = w_files w.
Proof.
  unfold free_table. destruct (selected_table (w_app w)); [|now split].
  destruct confirm; now split.
Qed.

(** C5.  [free_table] never changes the sales (nor writes a receipt),
    whatever the answer to the confirmation.  Once confirmed for the selected
    table, it deletes every order line of that table and sets its status to
    'free'; the order lines and the rows of the other tables stay as they
    are. *)
Theorem free_table_effect :
  forall w confirm,
  let w' := fst (free_table confirm w) in
  sales (w_db w') = sales (w_db w) /\
  seq_sales (w_db w') = seq_sales (w_db w) /\
  w_files w' = w_files w /\
  forall table_no,
    selected_table (w_app w) = Some table_no -> confirm = true ->
    orders (w_db w') = filter (fun o => negb (o_table_no o =? table_no)) (orders (w_db w)) /\
    order_line_count table_no (w_db w') = 0%nat /\
    (forall r, In r (tables (w_db w)) -> t_table_no r = table_no ->
       In (with_table_status "free" r) (tables (w_db w'))) /\
    (forall r', In r' (tables (w_db w')) -> t_table_no r' = table_no ->
       t_status r' = "free") /\
    (forall t', t' <> table_no ->
       get_orders_for_table t' (w_db w') = get_orders_for_table t' (w_db w)) /\
    (forall r, t_table_no r <> table_no ->
       (In r (tables (w_db w')) <-> In r (tables (w_db w)))).
Proof.
  intros w confirm. cbv zeta.
  split; [apply free_table_sales|].
  split.
  { unfold free_table. destruct (selected_table (w_app w)); [|reflexivity].
    now destruct confirm. }
  split; [apply free_table_sales|].
  intros table_no Hsel ->.
  destruct (free_table_confirmed w table_no Hsel) as [-> _].
  split; [reflexivity|]. split.
  { rewrite order_line_count_where. apply length_zero_iff_nil.
    unfold orders_where_table. simpl.
    exact (filter_negb_same (fun o => o_table_no o =? table_no) (orders (w_db w))). }
  split; [apply (table_status_after_set table_no "free")|].
  split; [apply (table_status_after_set table_no "free")|].
  split.
  { intros t' Hne. unfold get_orders_for_table, orders_where_table. simpl.
    now rewrite filter_other_table. }
  apply (table_status_after_set table_no "free"
           (delete_orders_for_table table_no (w_db w))).
Qed.

Lemma free_table_effect_witness :
  let w' := fst (free_table true world_two_tables) in
  sales (w_db w') = sales (w_db world_two_tables) /\
  order_line_count 3 (w_db world_two_tables) = 2%nat /\
  order_line_count 3 (w_db w') = 0%nat /\
  order_line_count 4 (w_db w') = 1%nat /\
  In (mk_table 3 3 "free") (tables (w_db w')) /\
  In (mk_table 4 4 "occupied") (tables (w_db w')).
Proof.
  cbv zeta.
  destruct (free_table_effect world_two_tables true) as [Hsales [_ [_ Heffect]]].
  assert (Hsel : selected_table (w_app world_two_tables) = Some 3)
    by (vm_compute; reflexivity).
  destruct (Heffect 3 Hsel eq_refl) as [_ [Hcount [Hfree [_ [Hother Htables]]]]].
  split; [exact Hsales|]. split; [vm_compute; reflexivity|]. split; [exact Hcount|].
  split; [unfold order_line_count; rewrite (Hother 4);
          [vm_compute; reflexivity | discriminate]|].
  split.
  - apply (Hfree (mk_table 3 3 "occupied")); [|reflexivity].
    vm_compute. do 2 right. left. reflexivity.
  - apply (Htables (mk_table 4 4 "occupied")); [discriminate|].
    vm_compute. do 3 right. left. reflexivity.
Defined.

(** ** Billing a table without order lines *)

(** C6.  [print_bill] on a selected table with zero order lines shows the
    "No orders" error and changes nothing: the statuses of the tables, the
    orders, the sales and the receipt files are as before, and the table
    stays selected. *)
Theorem print_bill_no_orders_rejected :
  forall w table_no now_invoice now_date now_sale,
  selected_table (w_app w) = Some table_no ->
  order_line_count table_no (w_db w) = 0%nat ->
  let w' := fst (print_bill now_invoice now_date now_sale w) in
  snd (print_bill now_invoice now_date now_sale w)
    = [showerror "No orders" "No orders for this table to bill."] /\
  w' = w /\
  tables (w_db w') = tables (w_db w) /\
  orders (w_db w') = orders (w_db w) /\
  sales (w_db w') = sales (w_db w) /\
  w_files w' = w_files w.
Proof.
  intros w table_no now_invoice now_date now_sale Hsel Hcount. cbv zeta.
  apply length_zero_iff_nil in Hcount.
  rewrite (print_bill_empty now_invoice now_date now_sale w table_no Hsel Hcount).
  repeat split.
Qed.

Lemma print_bill_no_orders_rejected_witness :
  let w := fst (open_table 5 world_two_tables) in
  print_bill noon noon noon w
    = (w, [showerror "No orders" "No orders for this table to bill."]).
Proof.
  cbv zeta.
  assert (Hsel : selected_table (w_app (fst (open_table 5 world_two_tables))) = Some 5)
    by reflexivity.
  assert (Hcount : order_line_count 5 (w_db (fst (open_table 5 world_two_tables))) = 0%nat)
    by (vm_compute; reflexivity).
  destruct (print_bill_no_orders_rejected (fst (open_table 5 world_two_tables)) 5
              noon noon noon Hsel Hcount) as [Hdialog [Hworld _]].
  rewrite (surjective_pairing (print_bill noon noon noon (fst (open_table 5 world_two_tables)))).
  now rewrite Hdialog, Hworld.
Defined.

(** ** MarkPrepared *)

Lemma with_orders_same (db : database) : with_orders (orders db) db = db.
Proof. now destruct db. Qed.

Lemma operation_lines (op : operation) (db : database) (o' : order_row) :
  In o' (orders (apply_operation op db)) ->
  In o' (orders db) \/
  (exists o, In o (orders db) /\ o' = with_status "prepared" o) \/
  (o_status o' = "pending" /\ o_id o' = seq_orders db + 1).
Proof.
  destruct op as [t item_id item_name qty price now | oid | oid | t total file now | t];
    simpl; intro Hin.
  - apply in_app_or in Hin. destruct Hin as [Hin | [<- | []]]; [now left|].
    right. right. now split.
  - left. now apply filter_In in Hin.
  - apply in_map_iff in Hin. destruct Hin as [o [<- Hin]].
    destruct (o_id o =? oid); [right; left; now exists o | now left].
  - left. now apply filter_In in Hin.
  - left. now apply filter_In in Hin.
Qed.

(** C7.  [mark_order_prepared] sets the status of every line with the given
    id to 'prepared', whatever its status was, and leaves the other lines,
    the tables and the sales alone; when no line has that id the store is
    unchanged, and the function is total.  No operation moves a line back:
    after any operation a line is an old line unchanged, an old line set to
    'prepared', or the new 'pending' line of AddItem. *)
Theorem mark_order_prepared_effect :
  forall db oid,
  let db' := mark_order_prepared oid db in
  (forall o, In o (orders db) -> o_id o = oid ->
     In (with_status "prepared" o) (orders db')) /\
  (forall o', In o' (orders db') -> o_id o' = oid -> o_status o' = "prepared") /\
  (forall o, o_id o <> oid -> (In o (orders db') <-> In o (orders db))) /\
  map o_id (orders db') = map o_id (orders db) /\
  ((forall o, In o (orders db) -> o_id o <> oid) -> db' = db) /\
  mark_order_prepared oid db' = db' /\
  tables db' = tables db /\
  sales db' = sales db /\
  (forall op o', In o' (orders (apply_operation op db)) ->
     In o' (orders db) \/
     (exists o, In o (orders db) /\ o' = with_status "prepared" o) \/
     (o_status o' = "pending" /\ o_id o' = seq_orders db + 1)).
Proof.
  intros db oid. cbv zeta. repeat apply conj.
  - intros o Hin Hid. simpl. apply in_map_iff. exists o. split; [|exact Hin].
    rewrite Hid. now rewrite Z.eqb_refl.
  - intros o' Hin Hid. simpl in Hin. apply in_map_iff in Hin.
    destruct Hin as [o [<- Hin]].
    destruct (Z.eqb_spec (o_id o) oid) as [He|Hne]; [reflexivity | contradiction].
  - intros o Hne. simpl. rewrite in_map_iff. split.
    + intros [o0 [Ho Hin]].
      destruct (Z.eqb_spec (o_id o0) oid) as [He|Hn]; subst o; [|exact Hin].
      now contradiction Hne.
    + intro Hin. exists o. split; [|exact Hin].
      destruct (Z.eqb_spec (o_id o) oid); [contradiction | reflexivity].
  - simpl. rewrite map_map. apply map_ext. intro o. now destruct (o_id o =? oid).
  - intro Hnone. unfold mark_order_prepared.
    replace (map (fun o => if o_id o =? oid then with_status "prepared" o else o) (orders db))
      with (orders db); [apply with_orders_same|].
    rewrite <- (map_id (orders db)) at 1. apply map_ext_in. intros o Hin.
    destruct (Z.eqb_spec (o_id o) oid) as [He|Hn]; [|reflexivity].
    now contradiction (Hnone o Hin).
  - unfold mark_order_prepared. destruct db as [ts ms os ss q1 q2 q3 q4]. simpl.
    unfold with_orders. simpl. f_equal. rewrite map_map. apply map_ext. intro o.
    destruct (Z.eqb_spec (o_id o) oid) as [He|Hn]; simpl.
    + now rewrite He, Z.eqb_refl.
    + destruct (Z.eqb_spec (o_id o) oid); [contradiction | reflexivity].
  - reflexivity.
  - reflexivity.
  - intros op o'. apply operation_lines.
Qed.

Lemma mark_order_prepared_effect_witness :
  let db := w_db world_two_tables in
  mark_order_prepared 99 db = db /\
  map (fun o => (o_id o, o_status o)) (orders db)
    = [(1, "pending"); (2, "pending"); (3, "pending")] /\
  In (mk_order 2 3 6 "Coke" 1 1.5 "prepared" (dt_isoformat noon))
     (orders (mark_order_prepared 2 db)).
Proof.
  cbv zeta.
  destruct (mark_order_prepared_effect (w_db world_two_tables) 99)
    as [_ [_ [_ [_ [Hnone _]]]]].
  destruct (mark_order_prepared_effect (w_db world_two_tables) 2) as [Hset _].
  split; [|split; [vm_compute; reflexivity|]].
  - apply Hnone.
    assert (Hids : map o_id (orders (w_db world_two_tables)) = [1; 2; 3])
      by (vm_compute; reflexivity).
    intros o Hin Hid. apply (in_map o_id) in Hin. rewrite Hids, Hid in Hin.
    destruct Hin as [H | [H | [H | []]]]; discriminate H.
  - apply (Hset (mk_order 2 3 6 "Coke" 1 1.5 "pending" (dt_isoformat noon)));
      [|reflexivity].
    vm_compute. right. left. reflexivity.
Defined.

(** ** The sales table *)

Lemma apply_operation_sales (op : operation) (db : database) :
  sales (apply_operation op db) = sales db ++ sale_of op db.
Proof. destruct op; simpl; now rewrite ?app_nil_r. Qed.

Lemma sale_of_length (op : operation) (db : database) :
  List.length (sale_of op db) = if is_complete_bill op then 1%nat else 0%nat.
Proof. now destruct op. Qed.

Lemma apply_operations_sales (ops : list operation) (db : database) :
  exists extra,
    sales (apply_operations ops db) = sales db ++ extra /\
    List.length extra = completed_bills ops.
Proof.
  revert db. induction ops as [|op ops IH]; intro db.
  - exists []. split; [now rewrite app_nil_r | reflexivity].
  - destruct (IH (apply_operation op db)) as [extra [Hs Hl]].
    exists (sale_of op db ++ extra). split.
    + unfold apply_operations in *. simpl. rewrite Hs, apply_operation_sales.
      now rewrite app_assoc.
    + rewrite length_app, Hl, sale_of_length. unfold completed_bills. simpl.
      now destruct (is_complete_bill op).
Qed.

Lemma mainloop_sales (es : list event) (w : world) :
  exists extra, sales (w_db (mainloop es w)) = sales (w_db w) ++ extra.
Proof.
  revert w. induction es as [|e es IH]; intro w.
  - exists []. now rewrite app_nil_r.
  - destruct (IH (fst (handle e w))) as [extra Hs].
    unfold mainloop in *. simpl. rewrite Hs.
    destruct (handle_store e w) as [-> | [op ->]]; [now exists extra|].
    rewrite apply_operation_sales, <- app_assoc. now eexists.
Qed.

(** C8.  The sales table is append-only.  CompleteBill appends exactly one
    Sale record and every other operation leaves the sales as they are; so
    after any sequence of operations the old sales are still there, in
    place and unchanged, followed by one record per billing action.  In the
    application, an event appends at most one Sale record, and any sequence
    of events keeps the old sales in place. *)
Theorem sales_append_only :
  forall (ops : list operation) (es : list event) (db : database) (w : world),
  (forall op, sales (apply_operation op db) = sales db ++ sale_of op db) /\
  (forall op, List.length (sale_of op db) = if is_complete_bill op then 1%nat else 0%nat) /\
  (exists extra,
     sales (apply_operations ops db) = sales db ++ extra /\
     List.length extra = completed_bills ops) /\
  (forall e, exists extra,
     sales (w_db (fst (handle e w))) = sales (w_db w) ++ extra /\
     (List.length extra <= 1)%nat) /\
  (exists extra, sales (w_db (mainloop es w)) = sales (w_db w) ++ extra).
Proof.
  intros ops es db w. split; [intro op; apply apply_operation_sales|].
  split; [intro op; apply sale_of_length|].
  split; [apply apply_operations_sales|].
  split; [|apply mainloop_sales].
  intro e. destruct (handle_store e w) as [-> | [op ->]].
  - exists []. split; [now rewrite app_nil_r | simpl; lia].
  - exists (sale_of op (w_db w)). split; [apply apply_operation_sales|].
    rewrite sale_of_length. destruct (is_complete_bill op); lia.
Qed.

(** ** Startup *)

(** C9.  [init_db] seeds an empty [tables] with exactly the 8 tables numbered
    1 to 8, all 'free', and an empty [menu] with exactly the 9 sample items,
    whose categories are Pizza, Burger, Pasta, Beverage, Sides and Salad; a
    table that already has rows is left as it is.  Orders and sales are not
    touched. *)
Theorem init_db_seeds :
  forall db,
  let db' := init_db db in
  (tables db = [] ->
     map (fun r => (t_table_no r, t_status r)) (tables db')
       = [(1, "free"); (2, "free"); (3, "free"); (4, "free");
          (5, "free"); (6, "free"); (7, "free"); (8, "free")] /\
     List.length (tables db') = 8%nat) /\
  (tables db <> [] -> tables db' = tables db) /\
  (menu db = [] ->
     map (fun r => (m_name r, m_price r, m_category r)) (menu db') = sample_menu /\
     List.length (menu db') = 9%nat /\
     (forall c, In c (map m_category (menu db')) <-> In c menu_categories)) /\
  (menu db <> [] -> menu db' = menu db) /\
  orders db' = orders db /\
  sales db' = sales db.
Proof.
  intros [ts ms os ss q1 q2 q3 q4]. cbv zeta. unfold init_db.
  destruct ts as [|t ts]; destruct ms as [|m ms]; simpl;
    repeat apply conj; try reflexivity; try congruence;
    try (intros _; repeat apply conj; try reflexivity);
    try (intro c; unfold menu_categories; simpl; tauto).
Qed.

Lemma init_db_seeds_witness :
  map t_table_no (tables (init_db empty_db)) = [1; 2; 3; 4; 5; 6; 7; 8] /\
  List.length (menu (init_db empty_db)) = 9%nat /\
  init_db (init_db empty_db) = init_db empty_db.
Proof.
  destruct (init_db_seeds empty_db) as [Htables [_ [Hmenu _]]].
  destruct (Htables eq_refl) as [Hrows _]. destruct (Hmenu eq_refl) as [_ [Hnine _]].
  split; [|split; [exact Hnine | vm_compute; reflexivity]].
  apply (f_equal (map fst)) in Hrows. rewrite map_map in Hrows. exact Hrows.
Defined.

(** ** The receipt's grand total *)

(** C10.  The grand total [generate_receipt_pdf] returns is subtotal +
    subtotal*tax_percent/100: it is the same for any two calls with the same
    subtotal and tax percent, whatever the items (and the table, the clock
    and the files) are.  The line totals summed up in [total_amount] do not
    reach it. *)
Theorem receipt_grand_total_ignores_items :
  forall table1 table2 items1 items2 subtotal tax_percent
         now1 now1' now2 now2' fs1 fs2,
  let grand_total1 :=
    snd (fst (generate_receipt_pdf table1 items1 subtotal tax_percent now1 now1' fs1)) in
  let grand_total2 :=
    snd (fst (generate_receipt_pdf table2 items2 subtotal tax_percent now2 now2' fs2)) in
  grand_total1 = grand_total2 /\
  grand_total1 = (subtotal + subtotal * tax_percent / 100.0)%float.
Proof.
  intros table1 table2 items1 items2 subtotal tax_percent now1 now1' now2 now2' fs1 fs2.
  cbv zeta.
  destruct (generate_receipt_pdf_result table1 items1 subtotal tax_percent now1 now1' fs1)
    as [-> _].
  destruct (generate_receipt_pdf_result table2 items2 subtotal tax_percent now2 now2' fs2)
    as [-> _].
  split; reflexivity.
Qed.

(** A receipt whose only line totals 100.00 but is called with subtotal 1.00
    is written all the same, with a grand total of 1.05. *)
Example receipt_inconsistent_items :
  fst (generate_receipt_pdf 1 [("Coke", 2, 1.5%float, 100.0%float)] 1.0 5.0 noon noon [])
    = ("receipts/receipt_table1_1730000000.pdf", 1.05%float).
Proof. vm_compute. reflexivity. Qed.

(** ** Rows stay in rowid order, so [ORDER BY id] returns them as stored *)

Lemma sorted_filter (f : order_row -> bool) (l : list order_row) :
  StronglySorted by_id l -> StronglySorted by_id (filter f l).
Proof.
  induction 1 as [|a l Hs IH Hall]; simpl; [constructor|].
  destruct (f a); [|exact IH]. constructor; [exact IH|].
  apply Forall_forall. intros x Hx. apply filter_In in Hx.
  rewrite Forall_forall in Hall. now apply Hall.
Qed.

Lemma sorted_map_same_id (u : order_row -> order_row) (l : list order_row) :
  (forall o, o_id (u o) = o_id o) ->
  StronglySorted by_id l -> StronglySorted by_id (map u l).
Proof.
  intro Hu. induction 1 as [|a l Hs IH Hall]; simpl; [constructor|].
  constructor; [exact IH|]. apply Forall_forall. intros x Hx.
  apply in_map_iff in Hx. destruct Hx as [o [<- Ho]].
  rewrite Forall_forall in Hall. unfold by_id. rewrite !Hu. now apply Hall.
Qed.

Lemma sorted_snoc (l : list order_row) (x : order_row) :
  StronglySorted by_id l -> Forall (fun o => o_id o < o_id x) l ->
  StronglySorted by_id (l ++ [x]).
Proof.
  induction 1 as [|a l Hs IH Hall]; intro Hlt; simpl.
  - constructor; constructor.
  - inversion Hlt as [|? ? Ha Hl]; subst. constructor; [now apply IH|].
    apply Forall_app. split; [exact Hall|]. constructor; [exact Ha | constructor].
Qed.

Lemma order_by_id_sorted (l : list order_row) :
  StronglySorted by_id l -> order_by_id l = l.
Proof.
  induction 1 as [|a l Hs IH Hall]; [reflexivity|].
  unfold order_by_id in *. simpl. rewrite IH.
  destruct l as [|b l]; [reflexivity|]. simpl.
  inversion Hall as [|? ? Hab _]; subst. unfold by_id in Hab.
  destruct (Z.leb_spec (o_id a) (o_id b)); [reflexivity | lia].
Qed.

Lemma rowid_order_step (op : operation) (db : database) :
  orders_in_rowid_order db -> orders_in_rowid_order (apply_operation op db).
Proof.
  intros [Hs Hb].
  destruct op as [t item_id item_name qty price now | oid | oid | t total file now | t];
    unfold orders_in_rowid_order; simpl.
  - split.
    + apply sorted_snoc; [exact Hs|].
      eapply Forall_impl; [|exact Hb]. simpl. intros; lia.
    + apply Forall_app. split.
      * eapply Forall_impl; [|exact Hb]. simpl. intros; lia.
      * constructor; [simpl; lia | constructor].
  - split; [now apply sorted_filter|].
    apply Forall_forall. intros o Ho. apply filter_In in Ho.
    rewrite Forall_forall in Hb. now apply Hb.
  - split.
    + apply sorted_map_same_id; [|exact Hs]. intro o. now destruct (o_id o =? oid).
    + apply Forall_forall. intros o' Ho'. apply in_map_iff in Ho'.
      destruct Ho' as [o [<- Ho]]. rewrite Forall_forall in Hb.
      destruct (o_id o =? oid); simpl; now apply Hb.
  - split; [now apply sorted_filter|].
    apply Forall_forall. intros o Ho. apply filter_In in Ho.
    rewrite Forall_forall in Hb. now apply Hb.
  - split; [now apply sorted_filter|].
    apply Forall_forall. intros o Ho. apply filter_In in Ho.
    rewrite Forall_forall in Hb. now apply Hb.
Qed.

Lemma reachable_rowid_order (db : database) :
  reachable db -> orders_in_rowid_order db.
Proof.
  induction 1 as [|op db _ IH]; [|now apply rowid_order_step].
  split; constructor.
Qed.

(** In a reachable database [get_orders_for_table] returns the rows of the
    table in the order they are stored. *)
Lemma get_orders_for_table_stored_order (table_no : Z) (db : database) :
  reachable db ->
  get_orders_for_table table_no db =
    map (fun o => (o_id o, o_item_name o, o_qty o, o_price o, o_status o))
        (orders_where_table table_no db).
Proof.
  intro Hr. destruct (reachable_rowid_order db Hr) as [Hs _].
  unfold get_orders_for_table. rewrite order_by_id_sorted; [reflexivity|].
  now apply sorted_filter.
Qed.

(** * Further properties of the program *)

(** ** Restarting the program *)

Lemma init_db_not_empty (db : database) :
  tables (init_db db) <> [] /\ menu (init_db db) <> [].
Proof.
  destruct db as [ts ms os ss q1 q2 q3 q4]. unfold init_db.
  destruct ts as [|t ts]; destruct ms as [|m ms]; simpl; split; discriminate.
Qed.

Lemma init_db_fixed (db : database) :
  tables db <> [] -> menu db <> [] -> init_db db = db.
Proof.
  destruct db as [ts ms os ss q1 q2 q3 q4]. simpl. intros Ht Hm.
  destruct ts as [|t ts]; [contradiction|]. destruct ms as [|m ms]; [contradiction|].
  reflexivity.
Qed.

Lemma apply_operation_keeps_tables (op : operation) (db : database) :
  map t_table_no (tables (apply_operation op db)) = map t_table_no (tables db) /\
  map t_id (tables (apply_operation op db)) = map t_id (tables db) /\
  menu (apply_operation op db) = menu db.
Proof.
  destruct op; simpl; repeat split; try reflexivity;
    rewrite map_map; apply map_ext; intro r;
    now destruct (t_table_no r =? _).
Qed.

Lemma apply_operations_keeps_tables (ops : list operation) (db : database) :
  map t_table_no (tables (apply_operations ops db)) = map t_table_no (tables db) /\
  map t_id (tables (apply_operations ops db)) = map t_id (tables db) /\
  menu (apply_operations ops db) = menu db.
Proof.
  revert db. induction ops as [|op ops IH]; intro db; [now repeat split|].
  unfold apply_operations in *. simpl.
  destruct (IH (apply_operation op db)) as [H1 [H2 H3]].
  destruct (apply_operation_keeps_tables op db) as [K1 [K2 K3]].
  rewrite H1, H2, H3. now repeat split.
Qed.

(** X1.  Running [init_db] again changes nothing: once the tables and the
    menu hold rows, a restart neither seeds them a second time nor touches
    any row, whatever the operations have done to the database since. *)
Theorem init_db_idempotent :
  forall db ops,
  init_db (init_db db) = init_db db /\
  init_db (apply_operations ops (init_db db)) = apply_operations ops (init_db db).
Proof.
  intros db ops. destruct (init_db_not_empty db) as [Ht Hm].
  split; [now apply init_db_fixed|].
  destruct (apply_operations_keeps_tables ops (init_db db)) as [H1 [_ H3]].
  apply init_db_fixed.
  - intro Hnil. rewrite Hnil in H1. simpl in H1. symmetry in H1.
    now apply map_eq_nil in H1.
  - now rewrite H3.
Qed.

(** ** The table grid *)

Lemma sorted_of_map {A : Type} (f : A -> Z) (l : list A) :
  StronglySorted Z.lt (map f l) -> StronglySorted (fun a b => f a < f b) l.
Proof.
  induction l as [|a l IH]; simpl; intro Hs; [constructor|].
  apply StronglySorted_inv in Hs. destruct Hs as [Hs Hall].
  constructor; [now apply IH|].
  rewrite Forall_forall in *. intros x Hx. apply Hall. now apply in_map.
Qed.

Lemma insert_by_table_no_sorted (l : list table_row) :
  StronglySorted (fun a b => t_table_no a < t_table_no b) l ->
  fold_right insert_by_table_no [] l = l.
Proof.
  induction 1 as [|a l Hs IH Hall]; [reflexivity|].
  simpl. rewrite IH. destruct l as [|b l]; [reflexivity|]. simpl.
  inversion Hall as [|? ? Hab _]; subst.
  destruct (Z.leb_spec (t_table_no a) (t_table_no b)); [reflexivity | lia].
Qed.

Lemma reachable_table_numbers (db : database) :
  reachable db -> map t_table_no (tables db) = [1; 2; 3; 4; 5; 6; 7; 8].
Proof.
  induction 1 as [|op db _ IH]; [vm_compute; reflexivity|].
  destruct (apply_operation_keeps_tables op db) as [-> _]. exact IH.
Qed.

(** X2.  The operations never create, delete or renumber a table: in every
    reachable database [get_tables] returns the eight tables 1 to 8 in that
    order, each with its stored status, 'free' or 'occupied'. *)
Theorem get_tables_eight_tables :
  forall db, reachable db ->
  map fst (get_tables db) = [1; 2; 3; 4; 5; 6; 7; 8] /\
  get_tables db = map (fun r => (t_table_no r, t_status r)) (tables db) /\
  (forall table_no status, In (table_no, status) (get_tables db) ->
     status = "free" \/ status = "occupied").
Proof.
  intros db Hr. pose proof (reachable_table_numbers db Hr) as Hnos.
  assert (Hsort : fold_right insert_by_table_no [] (tables db) = tables db).
  { apply insert_by_table_no_sorted, sorted_of_map. rewrite Hnos.
    repeat (constructor; [|repeat (constructor; try lia)]). constructor. }
  unfold get_tables. rewrite Hsort. split; [|split; [reflexivity|]].
  - rewrite map_map. exact Hnos.
  - intros table_no status Hin. apply in_map_iff in Hin.
    destruct Hin as [r [Heq Hin]]. inversion Heq; subst.
    now destruct (reachable_free_tables db Hr r Hin).
Qed.

Lemma db_kitchen_reachable : reachable db_kitchen.
Proof.
  unfold db_kitchen, apply_operations. cbn [fold_left].
  do 4 apply reachable_step. exact reachable_init.
Defined.

Lemma get_tables_eight_tables_witness :
  get_tables db_kitchen =
    [(1, "occupied"); (2, "occupied"); (3, "free"); (4, "free");
     (5, "free"); (6, "free"); (7, "free"); (8, "free")].
Proof.
  destruct (get_tables_eight_tables db_kitchen db_kitchen_reachable) as [_ [-> _]].
  vm_compute. reflexivity.
Defined.

(** ** Order ids *)

Lemma apply_operation_seq_orders (op : operation) (db : database) :
  seq_orders db <= seq_orders (apply_operation op db).
Proof. destruct op; simpl; lia. Qed.

Lemma sorted_ids_nodup (l : list order_row) :
  StronglySorted by_id l -> NoDup (map o_id l).
Proof.
  induction 1 as [|a l Hs IH Hall]; simpl; constructor; [|exact IH].
  intro Hin. apply in_map_iff in Hin. destruct Hin as [o [Hid Ho]].
  rewrite Forall_forall in Hall. specialize (Hall o Ho). unfold by_id in Hall. lia.
Qed.

Lemma later_lines_have_later_ids (ops : list operation) (db : database) (o' : order_row) :
  In o' (orders (apply_operations ops db)) ->
  (exists o, In o (orders db) /\ o_id o = o_id o') \/ seq_orders db < o_id o'.
Proof.
  revert db. induction ops as [|op ops IH]; intros db Hin.
  - left. now exists o'.
  - unfold apply_operations in *. simpl in Hin.
    pose proof (apply_operation_seq_orders op db) as Hseq.
    destruct (IH _ Hin) as [[o1 [Ho1 Hid]] | Hlt]; [|right; lia].
    destruct (operation_lines op db o1 Ho1) as [Hold | [[o [Ho ->]] | [_ Hnew]]].
    + left. now exists o1.
    + left. now exists o.
    + right. lia.
Qed.

(** X3.  Order-line ids are never shared and never reused.  In every
    reachable database the ids of the order lines are pairwise different and
    at most the sequence counter, and whatever operations follow, a line
    found afterwards either carries the id of a line present now or an id
    above the counter: the id of a deleted line does not come back. *)
Theorem order_ids_never_reused :
  forall db, reachable db ->
  NoDup (map o_id (orders db)) /\
  (forall o, In o (orders db) -> o_id o <= seq_orders db) /\
  (forall ops o', In o' (orders (apply_operations ops db)) ->
     (exists o, In o (orders db) /\ o_id o = o_id o') \/ seq_orders db < o_id o').
Proof.
  intros db Hr. destruct (reachable_rowid_order db Hr) as [Hs Hb].
  split; [now apply sorted_ids_nodup|]. split.
  - intros o Ho. rewrite Forall_forall in Hb. now apply Hb.
  - intros ops o'. apply later_lines_have_later_ids.
Qed.

Lemma order_ids_never_reused_witness :
  reachable db_coke_removed /\
  orders db_coke_removed = [] /\
  forall o', In o' (orders (apply_operations [AddItem 1 6 "Coke" 1 1.5%float noon]
                                              db_coke_removed)) ->
    1 < o_id o'.
Proof.
  assert (Hr : reachable db_coke_removed).
  { unfold db_coke_removed, apply_operations. cbn [fold_left].
    do 2 apply reachable_step. exact reachable_init. }
  split; [exact Hr|]. split; [vm_compute; reflexivity|].
  intros o' Hin.
  destruct (order_ids_never_reused db_coke_removed Hr) as [_ [_ Hlater]].
  destruct (Hlater _ o' Hin) as [[o [Ho _]] | Hlt].
  - vm_compute in Ho. contradiction.
  - exact Hlt.
Defined.

(** ** RemoveItem *)

Lemma filter_drop_one (oid : Z) (l : list order_row) :
  StronglySorted by_id l ->
  (S (List.length (filter (fun o => negb (o_id o =? oid)) l)) = List.length l /\
   exists o, In o l /\ o_id o = oid) \/
  (filter (fun o => negb (o_id o =? oid)) l = l /\
   forall o, In o l -> o_id o <> oid).
Proof.
  induction 1 as [|a l Hs IH Hall]; [right; split; [reflexivity | intros o []]|].
  simpl. destruct (Z.eqb_spec (o_id a) oid) as [He|Hne]; simpl.
  - left. split; [|exists a; split; [now left | exact He]].
    f_equal. clear IH Hs. induction l as [|b l IHl]; [reflexivity|].
    inversion Hall as [|? ? Hab Hl]; subst. simpl.
    unfold by_id in Hab.
    destruct (Z.eqb_spec (o_id b) (o_id a)) as [Hb|_]; [lia|].
    simpl. f_equal. now apply IHl.
  - destruct IH as [[Hlen [o [Ho Hid]]] | [Hsame Hnone]].
    + left. split; [now rewrite Hlen|]. exists o. split; [now right | exact Hid].
    + right. split; [now rewrite Hsame|].
      intros o [<- | Ho]; [exact Hne | now apply Hnone].
Qed.

(** X4.  RemoveItem ([DELETE FROM orders WHERE id=?]) deletes the lines with
    the given id and nothing else: table statuses, sales and the other
    lines stay as they are.  In a reachable database that is exactly one
    line when the id exists, whichever table it belongs to, and none (the
    database is unchanged) when it does not. *)
Theorem remove_item_deletes_one_line :
  forall db oid, reachable db ->
  let db' := delete_order oid db in
  tables db' = tables db /\
  sales db' = sales db /\
  (forall o, In o (orders db') <-> In o (orders db) /\ o_id o <> oid) /\
  ((exists o, In o (orders db) /\ o_id o = oid) ->
     S (List.length (orders db')) = List.length (orders db)) /\
  ((forall o, In o (orders db) -> o_id o <> oid) -> db' = db).
Proof.
  intros db oid Hr. cbv zeta. destruct (reachable_rowid_order db Hr) as [Hs _].
  split; [reflexivity|]. split; [reflexivity|]. split.
  { intro o. simpl. rewrite filter_In, negb_true_iff, Z.eqb_neq. reflexivity. }
  destruct (filter_drop_one oid (orders db) Hs) as [[Hlen _] | [Hsame Hnone]]; split.
  - intros _. exact Hlen.
  - intro Hno. unfold delete_order.
    destruct (filter_drop_one oid (orders db) Hs) as [[_ [o [Ho Hid]]] | [Hsame _]].
    + now contradiction (Hno o Ho).
    + rewrite Hsame. apply with_orders_same.
  - intros [o [Ho Hid]]. now contradiction (Hnone o Ho).
  - intros _. unfold delete_order. rewrite Hsame. apply with_orders_same.
Qed.

Lemma remove_item_deletes_one_line_witness :
  map o_id (orders db_kitchen) = [1; 2; 3] /\
  map o_id (orders (delete_order 3 db_kitchen)) = [1; 2] /\
  S (List.length (orders (delete_order 3 db_kitchen))) = List.length (orders db_kitchen) /\
  tables (delete_order 3 db_kitchen) = tables db_kitchen.
Proof.
  destruct (remove_item_deletes_one_line db_kitchen 3 db_kitchen_reachable)
    as [Ht [_ [_ [Hone _]]]].
  split; [vm_compute; reflexivity|]. split; [vm_compute; reflexivity|].
  split; [|exact Ht].
  apply Hone. exists (mk_order 3 2 3 "Veg Burger" 1 5.0 "pending" (dt_isoformat noon)).
  split; [|reflexivity]. vm_compute. do 2 right. left. reflexivity.
Defined.

(** ** Error dialogs *)

Lemma after_refresh_cases (w : world) :
  after_refresh w = [] \/
  (tax_var (w_app w) = None /\ after_refresh w = [callback_exception "TclError"]).
Proof.
  destruct (tax_var (w_app w)) as [p|] eqn:Htax.
  - left. exact (after_refresh_number w p Htax).
  - right. split; [reflexivity | exact (after_refresh_no_number w Htax)].
Qed.

Lemma reports_error_not_refresh (d : dialog) (w w' : world) :
  reports_error d w -> tax_var (w_app w') = tax_var (w_app w) ->
  ~ In d (after_refresh w').
Proof.
  intros Herr Htax Hin.
  destruct (after_refresh_cases w') as [Hnone | [Hno Hraise]].
  - rewrite Hnone in Hin. exact Hin.
  - rewrite Hraise in Hin. destruct Hin as [<- | []].
    destruct Herr as [[title [message H]] | [name [H [Hname | [p Hp]]]]].
    + discriminate H.
    + injection H as <-. now apply Hname.
    + rewrite <- Htax, Hno in Hp. discriminate Hp.
Qed.

(** X5.  A handler that reports an error changes nothing: whenever an event
    ends in a [showerror] dialog (no table selected, no item selected, no
    order line selected, no orders to bill), in a KeyError or OverflowError,
    or in a TclError while the Tax box holds a number (the Qty box holds
    none), the database, the receipt files and the application state are
    exactly as before.  The TclError of a Tax box without a number is left
    out: [refresh_order_view] raises it at the end of a handler, after the
    change. *)
Theorem error_dialog_means_no_change :
  forall e w d,
  In d (snd (handle e w)) ->
  (exists title message, d = showerror title message) \/
  (exists name, d = callback_exception name /\
     (name <> "TclError" \/ exists tax_percent, tax_var (w_app w) = Some tax_percent)) ->
  fst (handle e w) = w.
Proof.
  intros e w d Hin Herr. fold (reports_error d w) in Herr.
  assert (Hok : forall t m, d <> showinfo t m /\ d <> askyesno t m).
  { intros t m. destruct Herr as [[t' [m' ->]] | [n [-> _]]]; split; discriminate. }
  assert (Hquiet : forall w', tax_var (w_app w') = tax_var (w_app w) ->
                              ~ In d (after_refresh w'))
    by (intros w' Htax; exact (reports_error_not_refresh d w w' Herr Htax)).
  destruct e as [t | q | p | sel now | selected | | n1 n2 n3 | confirm | sel | | | | | ];
    simpl in Hin |- *; try contradiction.
  - now apply Hquiet in Hin.
  - unfold add_selected_item_to_order in *.
    destruct (selected_table (w_app w)); [|reflexivity].
    destruct sel as [item_id|]; [|reflexivity].
    destruct (dict_get item_id (menu_items (w_app w))) as [[[name price] cat]|];
      [|reflexivity].
    destruct (qty_var (w_app w)) as [value|]; [|reflexivity].
    destruct (sqlite_int _); [|reflexivity].
    now apply Hquiet in Hin.
  - destruct selected; [|reflexivity]. now apply Hquiet in Hin.
  - unfold send_to_kitchen. now destruct (selected_table (w_app w)).
  - destruct (selected_table (w_app w)) as [t|] eqn:Hsel;
      [|unfold print_bill; now rewrite Hsel].
    destruct (get_orders_for_table t (w_db w)) as [|o rows] eqn:Hrows.
    + now rewrite (print_bill_empty n1 n2 n3 w t Hsel Hrows).
    + assert (Hne : get_orders_for_table t (w_db w) <> []) by (rewrite Hrows; discriminate).
      destruct (tax_var (w_app w)) as [p|] eqn:Htax.
      * destruct (print_bill_billed n1 n2 n3 w t p Hsel Hne Htax) as [cells Hbill].
        rewrite Hbill in Hin. destruct Hin as [<- | []].
        now destruct (Hok "Billed"
          ("Bill printed and saved to:" ++ newline ++ receipt_filename t n1)%string).
      * now rewrite (print_bill_no_number n1 n2 n3 w t Hsel Hne Htax).
  - unfold free_table in *. destruct (selected_table (w_app w)) as [t|]; [|reflexivity].
    destruct confirm; [|reflexivity].
    destruct Hin as [<- | Hin].
    + now destruct (Hok "Confirm"
        ("Are you sure you want to free Table " ++ str_int t
         ++ "? This will remove all orders.")%string).
    + now apply Hquiet in Hin.
  - destruct sel; [contradiction | reflexivity].
Qed.

Lemma error_dialog_means_no_change_witness :
  fst (handle (ev_print_bill noon noon noon) startup) = startup /\
  fst (handle (ev_add_selected None noon) world_two_cokes) = world_two_cokes /\
  fst (handle (ev_add_selected (Some 6) noon) world_qty_2_63) = world_qty_2_63.
Proof.
  split; [|split].
  - apply (error_dialog_means_no_change (ev_print_bill noon noon noon) startup
             (showerror "No table selected" "Please select a table.")).
    + vm_compute. left. reflexivity.
    + left. now eexists _, _.
  - apply (error_dialog_means_no_change (ev_add_selected None noon) world_two_cokes
             (showerror "No item selected" "Please select a menu item to add.")).
    + vm_compute. left. reflexivity.
    + left. now eexists _, _.
  - apply (error_dialog_means_no_change (ev_add_selected (Some 6) noon) world_qty_2_63
             (callback_exception "OverflowError")).
    + vm_compute. left. reflexivity.
    + right. exists "OverflowError". split; [reflexivity | left; discriminate].
Defined.

(** With text that is no number in the Tax box, Add to Order stores the line
    and occupies the table, and then ends in the TclError of the closing
    [refresh_order_view]. *)
Example refresh_error_after_change :
  let w := mainloop [ev_open_table 1; ev_tax_no_number] startup in
  let r := handle (ev_add_selected (Some 6) noon) w in
  snd r = [callback_exception "TclError"] /\
  orders (w_db (fst r)) = [mk_order 1 1 6 "Coke" 1 1.5 "pending" (dt_isoformat noon)] /\
  In (mk_table 1 1 "occupied") (tables (w_db (fst r))).
Proof.
  cbv zeta. repeat apply conj.
  - vm_compute. reflexivity.
  - vm_compute. reflexivity.
  - vm_compute. left. reflexivity.
Qed.

(** ** Quantities *)

(** X6.  The quantity is not validated: [add_selected_item_to_order] stores
    whatever integer of the signed 64-bit range the Qty box holds, negative
    ones included, except 0, which it replaces by 1.  For an integer outside
    that range the INSERT raises OverflowError, for text that is no number
    [qty_var.get()] raises TclError, and in both cases nothing is stored. *)
Theorem add_selected_item_quantity :
  forall w table_no item_id name price cat now,
  selected_table (w_app w) = Some table_no ->
  dict_get item_id (menu_items (w_app w)) = Some (name, price, cat) ->
  let r := add_selected_item_to_order (Some item_id) now w in
  let line qty := mk_order (seq_orders (w_db w) + 1) table_no item_id name qty price
                           "pending" (dt_isoformat now) in
  (qty_var (w_app w) = Some 0 -> orders (w_db (fst r)) = orders (w_db w) ++ [line 1]) /\
  (forall qty, qty_var (w_app w) = Some qty -> qty <> 0 -> - 2 ^ 63 <= qty < 2 ^ 63 ->
     orders (w_db (fst r)) = orders (w_db w) ++ [line qty]) /\
  (forall qty, qty_var (w_app w) = Some qty -> qty < - 2 ^ 63 \/ 2 ^ 63 <= qty ->
     r = (w, [callback_exception "OverflowError"])) /\
  (qty_var (w_app w) = None -> r = (w, [callback_exception "TclError"])).
Proof.
  intros w table_no item_id name price cat now Hsel Hitem. cbv zeta.
  split; [|split; [|split]].
  - intro Hq.
    rewrite (add_selected_item_to_order_adds w table_no item_id name price cat 0 now
               Hsel Hitem Hq) by reflexivity.
    cbn [w_db with_db]. now rewrite add_order_item_orders.
  - intros qty Hq Hnz Hrange.
    assert (Hsame : (if qty =? 0 then 1 else qty) = qty)
      by (destruct (Z.eqb_spec qty 0); [contradiction | reflexivity]).
    rewrite (add_selected_item_to_order_adds w table_no item_id name price cat qty now
               Hsel Hitem Hq) by (rewrite Hsame; now apply sqlite_int_range).
    cbn [w_db with_db]. now rewrite add_order_item_orders, Hsame.
  - intros qty Hq Hout. unfold add_selected_item_to_order. rewrite Hsel, Hitem, Hq.
    assert (Hsame : (if qty =? 0 then 1 else qty) = qty)
      by (destruct (Z.eqb_spec qty 0); [lia | reflexivity]).
    rewrite Hsame.
    assert (Hint : sqlite_int qty = false).
    { unfold sqlite_int. apply andb_false_iff.
      destruct Hout; [left; apply Z.leb_gt | right; apply Z.ltb_ge]; lia. }
    now rewrite Hint.
  - intro Hq. unfold add_selected_item_to_order. now rewrite Hsel, Hitem, Hq.
Qed.

Lemma add_selected_item_quantity_witness :
  let w0 := mainloop [ev_open_table 1; ev_set_qty 0] startup in
  let wneg := mainloop [ev_open_table 1; ev_set_qty (-3)] startup in
  let wtext := mainloop [ev_open_table 1; ev_qty_no_number] startup in
  map o_qty (orders (w_db (fst (add_selected_item_to_order (Some 6) noon w0)))) = [1] /\
  map o_qty (orders (w_db (fst (add_selected_item_to_order (Some 6) noon wneg)))) = [-3] /\
  add_selected_item_to_order (Some 6) noon world_qty_2_63
    = (world_qty_2_63, [callback_exception "OverflowError"]) /\
  add_selected_item_to_order (Some 6) noon wtext = (wtext, [callback_exception "TclError"]).
Proof.
  cbv zeta. split; [|split; [|split]].
  - destruct (add_selected_item_quantity
                (mainloop [ev_open_table 1; ev_set_qty 0] startup)
                1 6 "Coke" 1.5%float "Beverage" noon) as [Hzero _];
      [vm_compute; reflexivity | vm_compute; reflexivity |].
    rewrite Hzero; [|vm_compute; reflexivity]. vm_compute. reflexivity.
  - destruct (add_selected_item_quantity
                (mainloop [ev_open_table 1; ev_set_qty (-3)] startup)
                1 6 "Coke" 1.5%float "Beverage" noon) as [_ [Hneg _]];
      [vm_compute; reflexivity | vm_compute; reflexivity |].
    rewrite (Hneg (-3)); [vm_compute; reflexivity | vm_compute; reflexivity | lia | lia].
  - destruct (add_selected_item_quantity world_qty_2_63
                1 6 "Coke" 1.5%float "Beverage" noon) as [_ [_ [Hbig _]]];
      [vm_compute; reflexivity | vm_compute; reflexivity |].
    apply (Hbig (2 ^ 63)); [vm_compute; reflexivity | right; lia].
  - destruct (add_selected_item_quantity
                (mainloop [ev_open_table 1; ev_qty_no_number] startup)
                1 6 "Coke" 1.5%float "Beverage" noon) as [_ [_ [_ Htext]]];
      [vm_compute; reflexivity | vm_compute; reflexivity |].
    apply Htext. vm_compute. reflexivity.
Defined.

(** ** Billing twice *)

Lemma complete_bill_and_save_no_lines table_no total receipt_file now db :
  get_orders_for_table table_no
    (complete_bill_and_save table_no total receipt_file now db) = [].
Proof.
  apply length_zero_iff_nil. fold (order_line_count table_no
    (complete_bill_and_save table_no total receipt_file now db)).
  rewrite order_line_count_where. apply length_zero_iff_nil.
  unfold orders_where_table. simpl.
  exact (filter_negb_same (fun o => o_table_no o =? table_no) (orders db)).
Qed.

(** X7.  A bill cannot be printed twice.  After a successful [print_bill]
    (the Tax box holds a number) no table is selected, so pressing the button
    again only shows "No table selected"; and if the same table is opened
    again first, it shows "No orders".  Either way no second sale is recorded
    and no receipt is written.  With text that is no number in the Tax box
    the first [print_bill] already ends in a TclError and changes nothing. *)
Theorem print_bill_twice_rejected :
  forall w table_no n1 n2 n3 m1 m2 m3,
  selected_table (w_app w) = Some table_no ->
  get_orders_for_table table_no (w_db w) <> [] ->
  let w1 := fst (print_bill n1 n2 n3 w) in
  let w2 := fst (open_table table_no w1) in
  (forall tax_percent, tax_var (w_app w) = Some tax_percent ->
     selected_table (w_app w1) = None /\
     print_bill m1 m2 m3 w1 = (w1, [showerror "No table selected" "Please select a table."]) /\
     print_bill m1 m2 m3 w2 = (w2, [showerror "No orders" "No orders for this table to bill."]) /\
     List.length (sales (w_db w1)) = S (List.length (sales (w_db w)))) /\
  (tax_var (w_app w) = None ->
     print_bill n1 n2 n3 w = (w, [callback_exception "TclError"])).
Proof.
  intros w table_no n1 n2 n3 m1 m2 m3 Hsel Hrows. cbv zeta. split.
  - intros tax_percent Htax.
    destruct (print_bill_billed n1 n2 n3 w table_no tax_percent Hsel Hrows Htax)
      as [cells ->].
    cbn [fst]. split; [reflexivity|]. split; [reflexivity|]. split.
    + apply print_bill_empty with (table_no := table_no); [reflexivity|].
      apply complete_bill_and_save_no_lines.
    + simpl. rewrite length_app. simpl. lia.
  - intro Htax. exact (print_bill_no_number n1 n2 n3 w table_no Hsel Hrows Htax).
Qed.

Lemma print_bill_twice_rejected_witness :
  let w1 := fst (print_bill noon noon noon world_two_cokes) in
  print_bill noon noon noon w1
    = (w1, [showerror "No table selected" "Please select a table."]) /\
  List.length (sales (w_db w1)) = 1%nat.
Proof.
  cbv zeta.
  assert (Hsel : selected_table (w_app world_two_cokes) = Some 1)
    by (vm_compute; reflexivity).
  assert (Hrows : get_orders_for_table 1 (w_db world_two_cokes) <> [])
    by (vm_compute; discriminate).
  assert (Htax : tax_var (w_app world_two_cokes) = Some 5.0%float)
    by (vm_compute; reflexivity).
  destruct (print_bill_twice_rejected world_two_cokes 1 noon noon noon noon noon noon
              Hsel Hrows) as [Hbilled _].
  destruct (Hbilled 5.0%float Htax) as [_ [Hagain [_ Hlen]]].
  split; [exact Hagain|]. rewrite Hlen. vm_compute. reflexivity.
Defined.

(** ** The kitchen queue *)

Lemma insert_by_timestamp_In (x o : order_row) (l : list order_row) :
  In x (insert_by_timestamp o l) <-> x = o \/ In x l.
Proof.
  induction l as [|y l IH]; simpl; [intuition|].
  destruct (o_timestamp o <=? o_timestamp y)%string; simpl; [intuition|].
  rewrite IH. intuition.
Qed.

Lemma order_by_timestamp_In (x : order_row) (l : list order_row) :
  In x (fold_right insert_by_timestamp [] l) <-> In x l.
Proof.
  induction l as [|y l IH]; simpl; [reflexivity|].
  rewrite insert_by_timestamp_In, IH. intuition.
Qed.

Lemma insert_by_timestamp_sorted (o : order_row) (l : list order_row) :
  Sorted (fun a b => (o_timestamp a <=? o_timestamp b)%string = true) l ->
  Sorted (fun a b => (o_timestamp a <=? o_timestamp b)%string = true)
         (insert_by_timestamp o l).
Proof.
  induction 1 as [|y l Hs IH Hhd]; simpl; [repeat constructor|].
  destruct (o_timestamp o <=? o_timestamp y)%string eqn:Hle.
  - constructor; [now constructor | now constructor].
  - constructor; [exact IH|].
    destruct l as [|z l]; simpl.
    + constructor. destruct (String.leb_total (o_timestamp o) (o_timestamp y)); congruence.
    + inversion Hhd; subst.
      destruct (o_timestamp o <=? o_timestamp z)%string; constructor; [|assumption].
      destruct (String.leb_total (o_timestamp o) (o_timestamp y)); congruence.
Qed.

Lemma get_pending_orders_In (db : database) (row : Z * Z * string * Z * float * string) :
  In row (get_pending_orders db) <->
  exists o, In o (orders db) /\ o_status o = "pending" /\
    row = (o_id o, o_table_no o, o_item_name o, o_qty o, o_price o, o_timestamp o).
Proof.
  unfold get_pending_orders. rewrite in_map_iff. split.
  - intros [o [<- Hin]]. apply order_by_timestamp_In, filter_In in Hin.
    destruct Hin as [Hin Hst]. apply String.eqb_eq in Hst. now exists o.
  - intros [o [Hin [Hst ->]]]. exists o. split; [reflexivity|].
    apply order_by_timestamp_In, filter_In. split; [exact Hin|].
    now apply String.eqb_eq.
Qed.

(** X8.  The kitchen queue [get_pending_orders] lists exactly the order
    lines whose status is 'pending', earliest timestamp first.  A line just
    added is in it; [mark_order_prepared] takes the lines with the given id
    out of it and leaves every other entry. *)
Theorem kitchen_queue_pending_lines :
  forall db,
  (forall row, In row (get_pending_orders db) <->
     exists o, In o (orders db) /\ o_status o = "pending" /\
       row = (o_id o, o_table_no o, o_item_name o, o_qty o, o_price o, o_timestamp o)) /\
  Sorted (fun a b => (snd a <=? snd b)%string = true) (get_pending_orders db) /\
  (forall table_no item_id item_name qty price now,
     In (seq_orders db + 1, table_no, item_name, qty, price, dt_isoformat now)
        (get_pending_orders (add_order_item table_no item_id item_name qty price now db))) /\
  (forall oid row,
     In row (get_pending_orders (mark_order_prepared oid db)) <->
     In row (get_pending_orders db) /\
     (let '(id, _, _, _, _, _) := row in id <> oid)).
Proof.
  intro db. split; [apply get_pending_orders_In|]. split; [|split].
  - unfold get_pending_orders.
    assert (Hs : Sorted (fun a b => (o_timestamp a <=? o_timestamp b)%string = true)
                   (fold_right insert_by_timestamp []
                      (filter (fun o => (o_status o =? "pending")%string) (orders db)))).
    { induction (filter _ (orders db)) as [|o l IH]; simpl; [constructor|].
      now apply insert_by_timestamp_sorted. }
    induction Hs as [|o l Hs IH Hhd]; simpl; constructor; [exact IH|].
    destruct Hhd; simpl; constructor. assumption.
  - intros table_no item_id item_name qty price now. apply get_pending_orders_In.
    exists (mk_order (seq_orders db + 1) table_no item_id item_name qty price
                     "pending" (dt_isoformat now)).
    split; [|split; reflexivity].
    rewrite add_order_item_orders. apply in_or_app. right. left. reflexivity.
  - intros oid row. rewrite !get_pending_orders_In. split.
    + intros [o' [Hin [Hst ->]]]. simpl in Hin. apply in_map_iff in Hin.
      destruct Hin as [o [Ho Hin]].
      destruct (Z.eqb_spec (o_id o) oid) as [He|Hne]; subst o'.
      * simpl in Hst. discriminate.
      * split; [now exists o | exact Hne].
    + intros [[o [Hin [Hst ->]]] Hne]. exists o. split; [|now split].
      simpl. apply in_map_iff. exists o. split; [|exact Hin].
      destruct (Z.eqb_spec (o_id o) oid); [contradiction | reflexivity].
Qed.

(** ** Operations on one table leave the others alone *)

Lemma filter_table_snoc_other (t t' : Z) (l : list order_row) (o : order_row) :
  o_table_no o = t -> t' <> t ->
  filter (fun x => o_table_no x =? t') (l ++ [o]) = filter (fun x => o_table_no x =? t') l.
Proof.
  intros Ho Hne. rewrite filter_app. simpl.
  destruct (Z.eqb_spec (o_table_no o) t'); [congruence | apply app_nil_r].
Qed.

(** X9.  AddItem, CompleteBill and FreeTable for one table never touch
    another table: its order lines (with their statuses) and its row in
    [tables] are the same before and after. *)
Theorem other_tables_untouched :
  forall op db table_no other,
  target_table op = Some table_no ->
  other <> table_no ->
  get_orders_for_table other (apply_operation op db) = get_orders_for_table other db /\
  (forall r, t_table_no r = other ->
     (In r (tables (apply_operation op db)) <-> In r (tables db))).
Proof.
  intros op db table_no other Htarget Hne.
  assert (Hr : forall r, t_table_no r = other -> t_table_no r <> table_no)
    by (intros r ->; exact Hne).
  destruct op as [t item_id item_name qty price now | oid | oid | t total file now | t];
    simpl in Htarget; try discriminate; inversion Htarget; subst t; simpl; split.
  - unfold get_orders_for_table, orders_where_table. simpl.
    now rewrite (filter_table_snoc_other table_no other).
  - intros r Hno.
    apply (table_status_after_set table_no "occupied"
             (insert_order table_no item_id item_name qty price "pending"
                (dt_isoformat now) db)); auto.
  - unfold get_orders_for_table, orders_where_table. simpl.
    now rewrite filter_other_table.
  - intros r Hno. unfold complete_bill_and_save.
    apply (table_status_after_set table_no "free"
             (delete_orders_for_table table_no
                (insert_sale table_no total (dt_strftime now) file db))); auto.
  - unfold get_orders_for_table, orders_where_table. simpl.
    now rewrite filter_other_table.
  - intros r Hno. unfold free_table_store.
    apply (table_status_after_set table_no "free"
             (delete_orders_for_table table_no db)); auto.
Qed.

Lemma other_tables_untouched_witness :
  get_orders_for_table 2 (apply_operation (FreeTable 1) db_kitchen)
    = [(3, "Veg Burger", 1, 5.0%float, "pending")] /\
  get_orders_for_table 1 (apply_operation (FreeTable 1) db_kitchen) = [].
Proof.
  destruct (other_tables_untouched (FreeTable 1) db_kitchen 1 2 eq_refl) as [Hlines _];
    [discriminate|].
  split; [rewrite Hlines|]; vm_compute; reflexivity.
Defined.

(** ** Decimal text of integers *)

Lemma string_of_uint_chars (d : Decimal.uint) :
  Forall (fun c => is_int_char c = true)
         (list_ascii_of_string (NilEmpty.string_of_uint d)).
Proof.
  induction d; simpl; constructor; try reflexivity; assumption.
Qed.

Lemma str_int_chars (z : Z) :
  Forall (fun c => is_int_char c = true) (list_ascii_of_string (str_int z)).
Proof.
  assert (Hu : forall d, Forall (fun c => is_int_char c = true)
                 (list_ascii_of_string (NilZero.string_of_uint d))).
  { intro d. destruct d; try apply string_of_uint_chars.
    simpl. constructor; [reflexivity | constructor]. }
  unfold str_int. destruct (Z.to_int z); simpl; [apply Hu|].
  constructor; [reflexivity | apply Hu].
Qed.

Lemma str_int_injective (a b : Z) : str_int a = str_int b -> a = b.
Proof.
  assert (Hnn : forall z, Z.to_int z <> Decimal.Pos Decimal.Nil /\
                          Z.to_int z <> Decimal.Neg Decimal.Nil).
  { intro z. destruct z; simpl; split; try discriminate;
      intro H; inversion H as [Hp]; now apply DecimalPos.Unsigned.to_uint_nonnil in Hp. }
  unfold str_int. intro Heq. apply DecimalZ.to_int_inj.
  destruct (Hnn a) as [Ha1 Ha2]. destruct (Hnn b) as [Hb1 Hb2].
  pose proof (NilZero.isi _ Ha1 Ha2) as Ia. pose proof (NilZero.isi _ Hb1 Hb2) as Ib.
  rewrite Heq in Ia. rewrite Ia in Ib. now inversion Ib.
Qed.

Lemma append_cancel_l (s a b : string) : (s ++ a = s ++ b)%string -> a = b.
Proof.
  induction s as [|c s IH]; simpl; intro H; [exact H|]. inversion H. now apply IH.
Qed.

Lemma append_split_at (c : ascii) (a a' r r' : string) :
  ~ In c (list_ascii_of_string a) -> ~ In c (list_ascii_of_string a') ->
  (a ++ String c r = a' ++ String c r')%string -> a = a' /\ r = r'.
Proof.
  revert a'. induction a as [|x a IH]; intros [|x' a'] Ha Ha' H; simpl in *.
  - inversion H. now split.
  - inversion H; subst. contradiction Ha'. now left.
  - inversion H; subst. contradiction Ha. now left.
  - inversion H; subst.
    destruct (IH a') as [-> ->]; auto.
Qed.

Lemma int_char_not (c : ascii) (z : Z) :
  is_int_char c = false -> ~ In c (list_ascii_of_string (str_int z)).
Proof.
  intros Hc Hin. pose proof (str_int_chars z) as Hall.
  rewrite Forall_forall in Hall. rewrite (Hall c Hin) in Hc. discriminate.
Qed.

(** ** Receipt file names *)

Lemma receipt_filename_injective (t1 t2 : Z) (n1 n2 : datetime) :
  receipt_filename t1 n1 = receipt_filename t2 n2 ->
  t1 = t2 /\ dt_timestamp n1 = dt_timestamp n2.
Proof.
  unfold receipt_filename. intro H. apply append_cancel_l in H.
  change ("_" ++ ?x)%string with (String "_" x) in H.
  apply (append_split_at "_"%char) in H; try (apply int_char_not; reflexivity).
  destruct H as [Ht H]. split; [now apply str_int_injective|].
  change (".pdf")%string with (String "." "pdf") in H.
  apply (append_split_at "."%char) in H; try (apply int_char_not; reflexivity).
  destruct H as [Hn _]. now apply str_int_injective.
Qed.

Lemma receipt_row_fold (items : list receipt_item) (doc : pdf) (acc : float) :
  fst (fold_left receipt_row items (doc, acc)) = doc ++ flat_map receipt_item_cells items.
Proof.
  revert doc acc. induction items as [|it items IH]; intros doc acc; simpl.
  - now rewrite app_nil_r.
  - destruct it as [[[name qty] price] line_total]. simpl.
    rewrite IH, <- app_assoc. reflexivity.
Qed.

Lemma generate_receipt_pdf_document table_no items subtotal tax_percent now_invoice now_date fs :
  generate_receipt_pdf table_no items subtotal tax_percent now_invoice now_date fs =
    ((receipt_filename table_no now_invoice,
      (subtotal + subtotal * tax_percent / 100.0)%float),
     write_file (receipt_filename table_no now_invoice)
                (receipt_document table_no items subtotal tax_percent now_date) fs).
Proof.
  unfold generate_receipt_pdf.
  pose proof (receipt_row_fold items (receipt_header table_no now_date) 0.0%float) as Hdoc.
  unfold receipt_header in Hdoc.
  destruct (fold_left receipt_row items _) as [doc total_amount].
  cbn [fst] in Hdoc. subst doc. unfold receipt_document, receipt_header, totals_cells.
  f_equal. f_equal. rewrite <- !app_assoc. reflexivity.
Qed.

Lemma read_file_written (filename : string) (doc : pdf) (fs : filesystem) :
  read_file filename (write_file filename doc fs) = Some doc.
Proof. unfold read_file, write_file. simpl. now rewrite String.eqb_refl. Qed.

Lemma read_file_other (filename other : string) (doc : pdf) (fs : filesystem) :
  other <> filename ->
  read_file other (write_file filename doc fs) = read_file other fs.
Proof.
  intro Hne. unfold read_file, write_file. simpl.
  destruct (String.eqb_spec filename other) as [He|_]; [now symmetry in He|].
  f_equal. induction fs as [|[n d] fs IH]; simpl; [reflexivity|].
  destruct (String.eqb_spec n filename) as [->|Hn]; simpl.
  - destruct (String.eqb_spec filename other); [congruence | exact IH].
  - destruct (String.eqb_spec n other); [reflexivity | exact IH].
Qed.

(** X10.  Receipt files are named after the table and the second of the
    clock, and nothing else.  Two calls of [generate_receipt_pdf] write the
    same file exactly when the table number and the timestamp agree: then the
    second receipt replaces the first; otherwise the first receipt is still
    there, unchanged, after the second is written. *)
Theorem receipt_file_collision :
  forall t1 t2 items1 items2 s1 s2 p1 p2 n1 d1 n2 d2 fs,
  let r1 := generate_receipt_pdf t1 items1 s1 p1 n1 d1 fs in
  let r2 := generate_receipt_pdf t2 items2 s2 p2 n2 d2 (snd r1) in
  let name1 := fst (fst r1) in
  let name2 := fst (fst r2) in
  (name1 = name2 <-> t1 = t2 /\ dt_timestamp n1 = dt_timestamp n2) /\
  read_file name2 (snd r2) = Some (receipt_document t2 items2 s2 p2 d2) /\
  (name1 <> name2 ->
     read_file name1 (snd r2) = Some (receipt_document t1 items1 s1 p1 d1)) /\
  (name1 = name2 ->
     read_file name1 (snd r2) = Some (receipt_document t2 items2 s2 p2 d2)).
Proof.
  intros t1 t2 items1 items2 s1 s2 p1 p2 n1 d1 n2 d2 fs. cbv zeta.
  rewrite !generate_receipt_pdf_document. cbn [fst snd].
  split; [|split; [|split]].
  - split; [apply receipt_filename_injective|].
    intros [-> Hn]. unfold receipt_filename. now rewrite Hn.
  - apply read_file_written.
  - intro Hne. rewrite read_file_other; [apply read_file_written | exact Hne].
  - intros ->. apply read_file_written.
Qed.

(** ** What [print_bill] writes *)

Lemma bill_line_fold rows items acc :
  fold_left bill_line rows (items, acc) =
    (items ++ map (fun o => let '(oid, item_name, qty, price, status) := o in
                            (item_name, qty, price, line_total o)) rows,
     fold_left PrimFloat.add (map line_total rows) acc).
Proof.
  revert items acc. induction rows as [|o rows IH]; intros items acc; simpl.
  - now rewrite app_nil_r.
  - destruct o as [[[[oid item_name] qty] price] status]. simpl.
    rewrite IH, <- app_assoc. reflexivity.
Qed.

Lemma print_bill_result n1 n2 n3 w table_no tax_percent :
  selected_table (w_app w) = Some table_no ->
  get_orders_for_table table_no (w_db w) <> [] ->
  tax_var (w_app w) = Some tax_percent ->
  let rows := get_orders_for_table table_no (w_db w) in
  let subtotal := float_sum (map line_total rows) in
  let grand_total := (subtotal + subtotal * tax_percent / 100.0)%float in
  let receipt_file := receipt_filename table_no n1 in
  print_bill n1 n2 n3 w =
    (mk_world (complete_bill_and_save table_no grand_total receipt_file n3 (w_db w))
              (write_file receipt_file
                 (receipt_header table_no n2 ++ flat_map receipt_line_cells rows
                  ++ totals_cells subtotal tax_percent (subtotal * tax_percent / 100.0)%float
                       grand_total)
                 (w_files w))
              (with_selected_table None (w_app w)),
     [showinfo "Billed" ("Bill printed and saved to:" ++ newline ++ receipt_file)%string]).
Proof.
  intros Hsel Hrows Htax. cbv zeta. unfold print_bill. rewrite Hsel, Htax.
  destruct (get_orders_for_table table_no (w_db w)) as [|o rows] eqn:Erows;
    [now contradiction Hrows|].
  rewrite bill_line_fold, generate_receipt_pdf_document.
  rewrite (after_refresh_number _ tax_percent) by exact Htax. cbn [app].
  assert (Hitems : forall l,
            flat_map receipt_item_cells
              (map (fun o : Z * string * Z * float * string =>
                      let '(oid, item_name, qty, price, status) := o in
                      (item_name, qty, price, line_total o)) l)
            = flat_map receipt_line_cells l).
  { induction l as [|[[[[oid item_name] qty] price] status] l IH]; [reflexivity|].
    simpl. now rewrite IH. }
  unfold receipt_document, float_sum. rewrite Hitems. reflexivity.
Qed.

(** X11.  The receipt [print_bill] writes lists every order line of the
    table once, in id order, as name, quantity, unit price and qty*price,
    between the header and the totals for the tax of the Tax box; it is
    stored under the file name recorded in the sale, and the receipts
    already on disk under other names are not touched.  With text that is no
    number in the Tax box nothing is written at all. *)
Theorem print_bill_receipt_content :
  forall w table_no n1 n2 n3,
  selected_table (w_app w) = Some table_no ->
  get_orders_for_table table_no (w_db w) <> [] ->
  let rows := get_orders_for_table table_no (w_db w) in
  let subtotal := float_sum (map line_total rows) in
  let w' := fst (print_bill n1 n2 n3 w) in
  (forall tax_percent, tax_var (w_app w) = Some tax_percent ->
     let tax := (subtotal * tax_percent / 100.0)%float in
     read_file (receipt_filename table_no n1) (w_files w') =
       Some (receipt_header table_no n2 ++ flat_map receipt_line_cells rows
             ++ totals_cells subtotal tax_percent tax (subtotal + tax)%float) /\
     map s_receipt_file (sales (w_db w')) =
       map s_receipt_file (sales (w_db w)) ++ [receipt_filename table_no n1] /\
     (forall other, other <> receipt_filename table_no n1 ->
        read_file other (w_files w') = read_file other (w_files w))) /\
  (tax_var (w_app w) = None -> w' = w).
Proof.
  intros w table_no n1 n2 n3 Hsel Hrows. cbv zeta. split.
  - intros tax_percent Htax.
    rewrite (print_bill_result n1 n2 n3 w table_no tax_percent Hsel Hrows Htax).
    cbn [fst w_files w_db].
    split; [apply read_file_written|]. split.
    + simpl. now rewrite map_app.
    + intros other Hne. now apply read_file_other.
  - intro Htax. now rewrite (print_bill_no_number n1 n2 n3 w table_no Hsel Hrows Htax).
Qed.

Lemma print_bill_receipt_content_witness :
  read_file "receipts/receipt_table1_1730000000.pdf"
            (w_files (fst (print_bill noon noon noon world_two_cokes)))
  = Some [ cell_text "Restaurant Receipt - Table 1";
           cell_text "Date: 2026-11-03 12:00:00";
           cell_text "Item"; cell_text "Qty"; cell_text "Price"; cell_text "Total";
           cell_text "Coke"; cell_int 2; cell_money 1.5; cell_money 3.0;
           cell_text "Subtotal"; cell_money 3.0;
           cell_tax_label 5.0; cell_money 0.15;
           cell_text "Grand Total"; cell_money 3.15;
           cell_text "Thank you for dining with us!" ].
Proof.
  assert (Hsel : selected_table (w_app world_two_cokes) = Some 1)
    by (vm_compute; reflexivity).
  assert (Hrows : get_orders_for_table 1 (w_db world_two_cokes) <> [])
    by (vm_compute; discriminate).
  assert (Htax : tax_var (w_app world_two_cokes) = Some 5.0%float)
    by (vm_compute; reflexivity).
  destruct (print_bill_receipt_content world_two_cokes 1 noon noon noon Hsel Hrows)
    as [Hbilled _].
  destruct (Hbilled 5.0%float Htax) as [Hread _].
  assert (Hname : receipt_filename 1 noon = "receipts/receipt_table1_1730000000.pdf")
    by (vm_compute; reflexivity).
  rewrite Hname in Hread. rewrite Hread. vm_compute. reflexivity.
Defined.

(** ** Sales and their receipt files *)

Lemma handle_sales_files (e : event) (w : world) :
  (sales (w_db (fst (handle e w))) = sales (w_db w) /\
   w_files (fst (handle e w)) = w_files w) \/
  (exists sale doc,
     sales (w_db (fst (handle e w))) = sales (w_db w) ++ [sale] /\
     w_files (fst (handle e w)) = write_file (s_receipt_file sale) doc (w_files w)).
Proof.
  destruct e as [t | q | p | sel now | selected | | n1 n2 n3 | confirm | sel | | | | | ];
    simpl; try (left; now split).
  - unfold add_selected_item_to_order.
    destruct (selected_table (w_app w)) as [t|]; [|left; now split].
    destruct sel as [item_id|]; [|left; now split].
    destruct (dict_get item_id (menu_items (w_app w))) as [[[name price] cat]|];
      [|left; now split].
    destruct (qty_var (w_app w)) as [value|]; [|left; now split].
    destruct (sqlite_int _); left; now split.
  - destruct selected; left; now split.
  - unfold send_to_kitchen. destruct (selected_table (w_app w)); left; now split.
  - destruct (selected_table (w_app w)) as [t|] eqn:Hsel;
      [|unfold print_bill; rewrite Hsel; left; now split].
    destruct (get_orders_for_table t (w_db w)) as [|o rows] eqn:Hrows.
    + rewrite (print_bill_empty n1 n2 n3 w t Hsel Hrows). left; now split.
    + assert (Hne : get_orders_for_table t (w_db w) <> []) by (rewrite Hrows; discriminate).
      destruct (tax_var (w_app w)) as [p|] eqn:Htax.
      * rewrite (print_bill_result n1 n2 n3 w t p Hsel Hne Htax). right.
        eexists (mk_sale _ _ _ _ (receipt_filename t n1)), _. split; reflexivity.
      * rewrite (print_bill_no_number n1 n2 n3 w t Hsel Hne Htax). left; now split.
  - left. apply free_table_sales.
  - destruct sel; left; now split.
Qed.

(** X12.  Every sale has its receipt: in every state the application can
    reach, the receipt file named in a sale record exists.  (Receipts are
    written before the sale is recorded and never deleted.) *)
Theorem every_sale_has_receipt :
  forall w, reachable_world w ->
  forall sale, In sale (sales (w_db w)) ->
  exists doc, read_file (s_receipt_file sale) (w_files w) = Some doc.
Proof.
  induction 1 as [|e w _ IH]; intros sale Hin; [contradiction|].
  destruct (handle_sales_files e w) as [[Hs Hf] | [new [doc [Hs Hf]]]];
    rewrite Hs in Hin; rewrite Hf.
  - now apply IH.
  - destruct (String.eqb_spec (s_receipt_file sale) (s_receipt_file new)) as [He|Hne].
    + exists doc. rewrite He. apply read_file_written.
    + rewrite read_file_other; [|exact Hne].
      apply in_app_or in Hin. destruct Hin as [Hin | [<- | []]]; [now apply IH|].
      now contradiction Hne.
Qed.

Lemma every_sale_has_receipt_witness :
  exists doc,
    read_file "receipts/receipt_table1_1730000000.pdf"
              (w_files (fst (handle (ev_print_bill noon noon noon) world_two_cokes)))
    = Some doc.
Proof.
  apply (every_sale_has_receipt
           (fst (handle (ev_print_bill noon noon noon) world_two_cokes))
           (reachable_event _ _
              (reachable_event (ev_add_selected (Some 6) noon) _
                 (reachable_event (ev_set_qty 2) _
                    (reachable_event (ev_open_table 1) _ reachable_startup))))
           (mk_sale 1 1 3.15 "2026-11-03 12:00:00" "receipts/receipt_table1_1730000000.pdf")).
  vm_compute. left. reflexivity.
Defined.

(** ** The menu listbox *)

Lemma prefix_append (s r : string) : prefix s (s ++ r) = true.
Proof.
  induction s as [|c s IH]; simpl; [now destruct r|].
  destruct (ascii_dec c c); [exact IH | contradiction].
Qed.

Lemma split_first_before (sep_tail a rest : string) (c0 : ascii) :
  ~ In c0 (list_ascii_of_string a) ->
  split_first (String c0 sep_tail) (a ++ String c0 sep_tail ++ rest) = a.
Proof.
  intro Ha. induction a as [|c a IH]; simpl.
  - destruct (ascii_dec c0 c0); [|contradiction]. now rewrite prefix_append.
  - destruct (ascii_dec c0 c) as [->|_]; [contradiction Ha; now left|].
    f_equal. apply IH. intro Hin. apply Ha. now right.
Qed.

Lemma dict_get_found (d : list (Z * (string * float * string)))
    (entry : Z * (string * float * string)) :
  In entry d ->
  dict_get (fst entry) d <> None /\
  (NoDup (map fst d) -> dict_get (fst entry) d = Some (snd entry)).
Proof.
  unfold dict_get. induction d as [|kv d IH]; intro Hin; [contradiction|].
  simpl. destruct (Z.eqb_spec (fst kv) (fst entry)) as [He|Hne]; simpl.
  - split; [discriminate|]. intro Hnd. destruct Hin as [-> | Hin]; [reflexivity|].
    inversion Hnd as [|? ? Hnotin _]; subst. contradiction Hnotin.
    rewrite He. now apply in_map.
  - destruct Hin as [-> | Hin]; [contradiction|].
    destruct (IH Hin) as [H1 H2]. split; [exact H1|].
    intro Hnd. apply H2. now inversion Hnd.
Qed.

(** X13.  The menu listbox shows one line per menu item of the chosen
    category (every item for "All"); the text of a line before its first
    " - " is exactly the decimal id of its item, whatever the item's name
    contains, and different ids give different texts; looking that id up in
    [menu_items] never fails, and returns the item of the line when the ids
    are unique. *)
Theorem menu_listbox_lines :
  forall format_2f selected_cat menu_items,
  (forall line, In line (populate_menu_listbox format_2f selected_cat menu_items) <->
     exists mid name price cat,
       In (mid, (name, price, cat)) menu_items /\
       (selected_cat = "All" \/ selected_cat = cat) /\
       line = menu_line format_2f (mid, (name, price, cat))) /\
  (forall entry, split_first " - " (menu_line format_2f entry) = str_int (fst entry)) /\
  (forall a b, str_int a = str_int b -> a = b) /\
  (forall entry, In entry menu_items ->
     dict_get (fst entry) menu_items <> None /\
     (NoDup (map fst menu_items) -> dict_get (fst entry) menu_items = Some (snd entry))).
Proof.
  intros format_2f selected_cat menu_items. split; [|split; [|split]].
  - intro line. unfold populate_menu_listbox. rewrite in_map_iff. split.
    + intros [[mid [[name price] cat]] [<- Hin]]. apply filter_In in Hin.
      destruct Hin as [Hin Hcat]. exists mid, name, price, cat.
      split; [exact Hin|]. split; [|reflexivity].
      apply orb_true_iff in Hcat. destruct Hcat as [H|H]; apply String.eqb_eq in H; auto.
    + intros [mid [name [price [cat [Hin [Hcat ->]]]]]].
      exists (mid, (name, price, cat)). split; [reflexivity|].
      apply filter_In. split; [exact Hin|]. apply orb_true_iff.
      destruct Hcat as [->| ->]; [left | right]; apply String.eqb_refl.
  - intros [mid [[name price] cat]]. unfold menu_line. cbn [fst].
    change (" - ")%string with (String " " "- ").
    apply (split_first_before "- "). apply int_char_not. reflexivity.
  - apply str_int_injective.
  - intros entry Hin. now apply dict_get_found.
Qed.

Lemma menu_listbox_lines_witness :
  map (split_first " - ")
      (populate_menu_listbox (fun _ => "0.00") "Beverage" (menu_items (w_app startup)))
    = ["6"; "7"] /\
  dict_get 6 (menu_items (w_app startup)) = Some ("Coke", 1.5%float, "Beverage").
Proof.
  destruct (menu_listbox_lines (fun _ => "0.00") "Beverage" (menu_items (w_app startup)))
    as [_ [_ [_ Hget]]].
  split; [vm_compute; reflexivity|].
  destruct (Hget (6, ("Coke", 1.5%float, "Beverage"))) as [_ Hsome].
  - vm_compute. do 5 right. left. reflexivity.
  - apply Hsome. vm_compute.
    repeat (constructor; [simpl; intuition discriminate|]). constructor.
Defined.

(** ** The totals on the screen *)

Lemma view_line_fold rows acc_rows acc :
  fold_left view_line rows (acc_rows, acc) =
    (acc_rows ++ map view_row rows, fold_left PrimFloat.add (map line_total rows) acc).
Proof.
  revert acc_rows acc. induction rows as [|o rows IH]; intros acc_rows acc; simpl.
  - now rewrite app_nil_r.
  - destruct o as [[[[oid item_name] qty] price] status]. simpl.
    rewrite IH, <- app_assoc. reflexivity.
Qed.

(** X14.  [refresh_order_view] shows one row per order line of the selected
    table and, as Subtotal, the very subtotal [print_bill] bills.  With the
    number taxPercent in the Tax box its Grand Total is subtotal +
    subtotal*(taxPercent/100), whereas the total billed and stored in the
    sale is subtotal + subtotal*taxPercent/100: two different binary64
    computations.  With no table selected the view has no row and a subtotal
    of 0.0.  With text that is no number in the Tax box the rows and the
    Subtotal are the same and no Grand Total is set. *)
Theorem refresh_order_view_totals :
  forall w,
  (forall tax_percent, tax_var (w_app w) = Some tax_percent ->
     (selected_table (w_app w) = None ->
        refresh_order_view w
          = ([], 0.0%float, Some (0.0 + 0.0 * (tax_percent / 100.0))%float)) /\
     (forall table_no, selected_table (w_app w) = Some table_no ->
        let rows := get_orders_for_table table_no (w_db w) in
        let subtotal := float_sum (map line_total rows) in
        refresh_order_view w =
          (map view_row rows, subtotal,
           Some (subtotal + subtotal * (tax_percent / 100.0))%float) /\
        (rows <> [] ->
         forall n1 n2 n3,
           map s_total (sales (w_db (fst (print_bill n1 n2 n3 w)))) =
             map s_total (sales (w_db w))
             ++ [(subtotal + subtotal * tax_percent / 100.0)%float]))) /\
  (tax_var (w_app w) = None ->
     (selected_table (w_app w) = None ->
        refresh_order_view w = ([], 0.0%float, None)) /\
     (forall table_no, selected_table (w_app w) = Some table_no ->
        let rows := get_orders_for_table table_no (w_db w) in
        refresh_order_view w
          = (map view_row rows, float_sum (map line_total rows), None))).
Proof.
  intro w. cbv zeta. split.
  - intros tax_percent Htax. split.
    + intro Hsel. unfold refresh_order_view. now rewrite Hsel, Htax.
    + intros table_no Hsel. split.
      * unfold refresh_order_view. rewrite Hsel, Htax, view_line_fold. reflexivity.
      * intros Hrows n1 n2 n3.
        rewrite (print_bill_result n1 n2 n3 w table_no tax_percent Hsel Hrows Htax). simpl.
        now rewrite map_app.
  - intro Htax. split.
    + intro Hsel. unfold refresh_order_view. now rewrite Hsel, Htax.
    + intros table_no Hsel.
      unfold refresh_order_view. rewrite Hsel, Htax, view_line_fold. reflexivity.
Qed.

Lemma refresh_order_view_totals_witness :
  snd (refresh_order_view world_pizza_tax47) = Some 12.495%float /\
  map s_total (sales (w_db (fst (print_bill noon noon noon world_pizza_tax47))))
    = [12.495000000000001%float] /\
  12.495%float <> 12.495000000000001%float.
Proof.
  destruct (refresh_order_view_totals world_pizza_tax47) as [Hnumber _].
  assert (Htax : tax_var (w_app world_pizza_tax47) = Some 47.0%float)
    by (vm_compute; reflexivity).
  destruct (Hnumber 47.0%float Htax) as [_ Hsel].
  assert (Hs : selected_table (w_app world_pizza_tax47) = Some 1)
    by (vm_compute; reflexivity).
  destruct (Hsel 1 Hs) as [Hview Hbill].
  split; [rewrite Hview; vm_compute; reflexivity|]. split.
  - rewrite Hbill; [vm_compute; reflexivity | vm_compute; discriminate].
  - apply float_eqb_neq; vm_compute; reflexivity.
Defined.

(** ** Order lines and the menu *)

Lemma dict_get_In (k : Z) (v : string * float * string)
    (d : list (Z * (string * float * string))) :
  dict_get k d = Some v -> In (k, v) d.
Proof.
  unfold dict_get. intro H.
  destruct (find (fun kv => fst kv =? k) d) as [[k' v']|] eqn:Hf; [|discriminate].
  apply find_some in Hf. destruct Hf as [Hin Hk]. simpl in *.
  apply Z.eqb_eq in Hk. inversion H. subst. exact Hin.
Qed.

Lemma handle_menu_items (e : event) (w : world) :
  menu_items (w_app (fst (handle e w))) = menu_items (w_app w) /\
  menu (w_db (fst (handle e w))) = menu (w_db w).
Proof.
  destruct e as [t | q | p | sel now | selected | | n1 n2 n3 | confirm | sel | | | | | ];
    simpl; try (now split).
  - unfold add_selected_item_to_order.
    destruct (selected_table (w_app w)) as [t|]; [|now split].
    destruct sel as [item_id|]; [|now split].
    destruct (dict_get item_id (menu_items (w_app w))) as [[[name price] cat]|];
      [|now split].
    destruct (qty_var (w_app w)) as [value|]; [|now split].
    now destruct (sqlite_int _).
  - now destruct selected.
  - unfold send_to_kitchen. now destruct (selected_table (w_app w)).
  - destruct (selected_table (w_app w)) as [t|] eqn:Hsel;
      [|unfold print_bill; now rewrite Hsel].
    destruct (get_orders_for_table t (w_db w)) as [|o rows] eqn:Hrows.
    + now rewrite (print_bill_empty n1 n2 n3 w t Hsel Hrows).
    + assert (Hne : get_orders_for_table t (w_db w) <> []) by (rewrite Hrows; discriminate).
      destruct (tax_var (w_app w)) as [p|] eqn:Htax.
      * now rewrite (print_bill_result n1 n2 n3 w t p Hsel Hne Htax).
      * now rewrite (print_bill_no_number n1 n2 n3 w t Hsel Hne Htax).
  - unfold free_table. destruct (selected_table (w_app w)) as [t|]; [|now split].
    now destruct confirm.
  - now destruct sel.
Qed.

Lemma handle_order_lines (e : event) (w : world) (o' : order_row) :
  In o' (orders (w_db (fst (handle e w)))) ->
  In o' (orders (w_db w)) \/
  (exists o, In o (orders (w_db w)) /\ o' = with_status "prepared" o) \/
  (exists cat, dict_get (o_item_id o') (menu_items (w_app w))
               = Some (o_item_name o', o_price o', cat)).
Proof.
  destruct e as [t | q | p | sel now | selected | | n1 n2 n3 | confirm | sel | | | | | ];
    simpl; try (now left).
  - unfold add_selected_item_to_order.
    destruct (selected_table (w_app w)) as [t|]; [|now left].
    destruct sel as [item_id|]; [|now left].
    destruct (dict_get item_id (menu_items (w_app w))) as [[[name price] cat]|] eqn:Hget;
      [|now left].
    destruct (qty_var (w_app w)) as [value|]; [|now left].
    destruct (sqlite_int _); [|now left].
    simpl. intro Hin. apply in_app_or in Hin. destruct Hin as [Hin | [<- | []]]; [now left|].
    right. right. exists cat. exact Hget.
  - destruct selected as [oid|]; [|now left]. simpl. intro Hin.
    left. now apply filter_In in Hin.
  - unfold send_to_kitchen. destruct (selected_table (w_app w)); now left.
  - destruct (selected_table (w_app w)) as [t|] eqn:Hsel;
      [|unfold print_bill; rewrite Hsel; now left].
    destruct (get_orders_for_table t (w_db w)) as [|o rows] eqn:Hrows.
    + rewrite (print_bill_empty n1 n2 n3 w t Hsel Hrows). now left.
    + assert (Hne : get_orders_for_table t (w_db w) <> []) by (rewrite Hrows; discriminate).
      destruct (tax_var (w_app w)) as [p|] eqn:Htax.
      * rewrite (print_bill_result n1 n2 n3 w t p Hsel Hne Htax). simpl. intro Hin.
        left. now apply filter_In in Hin.
      * rewrite (print_bill_no_number n1 n2 n3 w t Hsel Hne Htax). now left.
  - unfold free_table. destruct (selected_table (w_app w)) as [t|]; [|now left].
    destruct confirm; [|now left]. simpl. intro Hin. left. now apply filter_In in Hin.
  - destruct sel as [oid|]; [|now left]. simpl. intro Hin.
    apply in_map_iff in Hin. destruct Hin as [o [<- Hin]].
    destruct (o_id o =? oid); [right; left; now exists o | now left].
Qed.

Lemma reachable_world_menu (w : world) :
  reachable_world w ->
  menu (w_db w) = menu (init_db empty_db) /\
  menu_items (w_app w) = load_menu (w_db w).
Proof.
  unfold load_menu. induction 1 as [|e w _ [IHmenu IHdict]].
  - split; vm_compute; reflexivity.
  - destruct (handle_menu_items e w) as [Hd Hm]. rewrite Hd, Hm. now split.
Qed.

(** X15.  The menu is fixed and order lines copy it faithfully.  In every
    state the application can reach, the menu table is the seeded one, the
    in-memory [menu_items] is that table, and every order line carries the
    name and the price of the menu item its [item_id] names. *)
Theorem order_lines_match_menu :
  forall w, reachable_world w ->
  menu (w_db w) = menu (init_db empty_db) /\
  menu_items (w_app w) = load_menu (w_db w) /\
  (forall o, In o (orders (w_db w)) ->
     exists m, In m (menu (w_db w)) /\
       m_id m = o_item_id o /\ m_name m = o_item_name o /\ m_price m = o_price o).
Proof.
  unfold load_menu. induction 1 as [|e w _ [IHmenu [IHdict IHlines]]].
  - split; [vm_compute; reflexivity|]. split; [vm_compute; reflexivity|]. intros o [].
  - destruct (handle_menu_items e w) as [Hd Hm]. rewrite Hd, Hm.
    split; [exact IHmenu|]. split; [exact IHdict|].
    intros o' Hin.
    destruct (handle_order_lines e w o' Hin) as [Hold | [[o [Ho ->]] | [cat Hget]]].
    + now apply IHlines.
    + destruct (IHlines o Ho) as [m Hm']. now exists m.
    + apply dict_get_In in Hget. rewrite IHdict in Hget.
      apply in_map_iff in Hget.
      destruct Hget as [m [Heq Hin']]. inversion Heq. now exists m.
Qed.

Lemma order_lines_match_menu_witness :
  exists m, In m (menu (w_db world_two_cokes)) /\
    m_id m = 6 /\ m_name m = "Coke" /\ m_price m = 1.5%float.
Proof.
  destruct (order_lines_match_menu world_two_cokes
              (reachable_event (ev_add_selected (Some 6) noon) _
                 (reachable_event (ev_set_qty 2) _
                    (reachable_event (ev_open_table 1) _ reachable_startup))))
    as [_ [_ Hlines]].
  apply (Hlines (mk_order 1 1 6 "Coke" 2 1.5 "pending" (dt_isoformat noon))).
  vm_compute. left. reflexivity.
Defined.

(** ** The menu dict does not depend on the order of [get_menu_items] *)

Lemma insert_by_category_name_perm (m : menu_row) (l : list menu_row) :
  Permutation (insert_by_category_name m l) (m :: l).
Proof.
  induction l as [|x l IH]; simpl; [reflexivity|].
  destruct (menu_row_leb m x); [reflexivity|].
  rewrite IH. apply perm_swap.
Qed.

Lemma order_by_category_name_perm (l : list menu_row) :
  Permutation (fold_right insert_by_category_name [] l) l.
Proof.
  induction l as [|x l IH]; simpl; [reflexivity|].
  rewrite insert_by_category_name_perm. now constructor.
Qed.

Lemma dict_get_set (k k' : Z) (v : string * float * string)
    (d : list (Z * (string * float * string))) :
  dict_get k (dict_set k' v d) = if k' =? k then Some v else dict_get k d.
Proof.
  unfold dict_get. induction d as [|[k0 v0] d IH]; simpl.
  - now destruct (k' =? k).
  - destruct (Z.eqb_spec k0 k') as [->|Hne]; simpl.
    + now destruct (k' =? k).
    + destruct (Z.eqb_spec k0 k) as [->|Hk]; [|exact IH].
      destruct (Z.eqb_spec k' k); [congruence | reflexivity].
Qed.

Lemma dict_get_absent (k : Z) (d : list (Z * (string * float * string))) :
  ~ In k (map fst d) -> dict_get k d = None.
Proof.
  unfold dict_get. induction d as [|[k0 v0] d IH]; simpl; intro Hnot; [reflexivity|].
  destruct (Z.eqb_spec k0 k) as [->|Hne]; [contradiction Hnot; now left|].
  apply IH. intro Hin. apply Hnot. now right.
Qed.

Lemma dict_of_rows_get (rows : list (Z * string * float * string))
    (d0 : list (Z * (string * float * string))) (k : Z) :
  NoDup (map (fun r => fst (fst (fst r))) rows) ->
  (forall name price category, In (k, name, price, category) rows ->
     dict_get k (fold_left (fun d r => let '(id, n, p, c) := r in
                                       dict_set id (n, p, c) d) rows d0)
       = Some (name, price, category)) /\
  (~ In k (map (fun r => fst (fst (fst r))) rows) ->
     dict_get k (fold_left (fun d r => let '(id, n, p, c) := r in
                                       dict_set id (n, p, c) d) rows d0)
       = dict_get k d0).
Proof.
  revert d0. induction rows as [|[[[id n] p] c] rows IH]; intros d0 Hnd; simpl.
  - split; [intros ? ? ? [] | reflexivity].
  - inversion Hnd as [|? ? Hnotin Hnd']; subst. simpl in Hnotin.
    destruct (IH (dict_set id (n, p, c) d0) Hnd') as [IHin IHout]. split.
    + intros name price category [Heq | Hin].
      * inversion Heq; subst. rewrite (IHout Hnotin), dict_get_set.
        now rewrite Z.eqb_refl.
      * now apply IHin.
    + intro Hnot. rewrite IHout; [|intro Hin; apply Hnot; now right].
      rewrite dict_get_set. destruct (Z.eqb_spec id k) as [->|_]; [|reflexivity].
      contradiction Hnot. now left.
Qed.

(** X16.  [load_menu] builds the dict from the rows of [get_menu_items],
    which come ordered by category and name.  Whenever the menu ids are
    unique the lookups do not depend on that order: every id gives the same
    result as in the dict built from the table in stored order.  This is so
    in every state the application can reach, where [menu_items] therefore
    answers every lookup as the program's dict does. *)
Theorem menu_dict_order_independent :
  forall db,
  NoDup (map m_id (menu db)) ->
  (forall k, dict_get k (dict_of_rows (get_menu_items db)) = dict_get k (load_menu db)) /\
  (forall w, reachable_world w -> w_db w = db ->
     forall k, dict_get k (dict_of_rows (get_menu_items db)) = dict_get k (menu_items (w_app w))).
Proof.
  intros db Hnd.
  assert (Hlookup : forall k,
            dict_get k (dict_of_rows (get_menu_items db)) = dict_get k (load_menu db)).
  { intro k.
    set (sorted := fold_right insert_by_category_name [] (menu db)).
    assert (Hperm : Permutation sorted (menu db)) by apply order_by_category_name_perm.
    assert (Hids : map (fun r : Z * string * float * string => fst (fst (fst r)))
                       (get_menu_items db) = map m_id sorted).
    { unfold get_menu_items. fold sorted. rewrite map_map. reflexivity. }
    assert (Hnd' : NoDup (map (fun r : Z * string * float * string => fst (fst (fst r)))
                              (get_menu_items db))).
    { rewrite Hids. apply (Permutation_NoDup (l := map m_id (menu db))); [|exact Hnd].
      apply Permutation_map. now symmetry. }
    destruct (dict_of_rows_get (get_menu_items db) [] k Hnd') as [Hin Hout].
    fold (dict_of_rows (get_menu_items db)) in Hin, Hout.
    destruct (in_dec Z.eq_dec k (map m_id (menu db))) as [Hk|Hk].
    - apply in_map_iff in Hk. destruct Hk as [m [<- Hm]].
      rewrite (Hin (m_name m) (m_price m) (m_category m)).
      + symmetry.
        destruct (dict_get_found (load_menu db) (m_id m, (m_name m, m_price m, m_category m)))
          as [_ Hsome].
        * unfold load_menu. apply in_map_iff. now exists m.
        * apply Hsome. unfold load_menu. now rewrite map_map.
      + unfold get_menu_items. fold sorted. apply in_map_iff. exists m.
        split; [reflexivity|]. apply (Permutation_in (l := menu db)); [now symmetry | exact Hm].
    - rewrite Hout.
      + symmetry. apply dict_get_absent. unfold load_menu. now rewrite map_map.
      + rewrite Hids. intro Hin'. apply Hk.
        apply (Permutation_in (l := map m_id sorted)); [|exact Hin'].
        now apply Permutation_map. }
  split; [exact Hlookup|].
  intros w Hw Hdb k. rewrite Hlookup.
  destruct (reachable_world_menu w Hw) as [_ ->]. now rewrite Hdb.
Qed.

Lemma menu_dict_order_independent_witness :
  map (fun r => fst (fst (fst r))) (get_menu_items (init_db empty_db))
    = [6; 7; 4; 3; 5; 2; 1; 9; 8] /\
  dict_get 6 (dict_of_rows (get_menu_items (init_db empty_db)))
    = Some ("Coke", 1.5%float, "Beverage").
Proof.
  assert (Hnd : NoDup (map m_id (menu (init_db empty_db)))).
  { vm_compute. repeat (constructor; [simpl; intuition discriminate|]). constructor. }
  destruct (menu_dict_order_independent (init_db empty_db) Hnd) as [Hlookup _].
  split; [vm_compute; reflexivity|].
  rewrite Hlookup. vm_compute. reflexivity.
Defined.

(** ** Order-line statuses and the kitchen queue over the lifecycle *)

Lemma reachable_line_status (db : database) :
  reachable db ->
  forall o, In o (orders db) -> o_status o = "pending" \/ o_status o = "prepared".
Proof.
  induction 1 as [|op db _ IH]; intros o' Hin; [contradiction|].
  destruct (operation_lines op db o' Hin) as [Hold | [[o [Ho ->]] | [Hnew _]]].
  - now apply IH.
  - now right.
  - now left.
Qed.

Lemma pending_after_delete_table (t : Z) (db : database)
    (row : Z * Z * string * Z * float * string) :
  In row (get_pending_orders (delete_orders_for_table t db)) <->
  In row (get_pending_orders db) /\ (let '(_, table_no, _, _, _, _) := row in table_no <> t).
Proof.
  rewrite !get_pending_orders_In. split.
  - intros [o [Hin [Hst ->]]]. simpl in Hin. apply filter_In in Hin.
    destruct Hin as [Hin Hne]. apply negb_true_iff, Z.eqb_neq in Hne.
    split; [now exists o | exact Hne].
  - intros [[o [Hin [Hst ->]]] Hne]. exists o. split; [|now split].
    simpl. apply filter_In. split; [exact Hin|]. now apply negb_true_iff, Z.eqb_neq.
Qed.

(** X17.  In every reachable database an order line is 'pending' or
    'prepared', so each line is either in the kitchen queue or prepared.
    Billing a table or freeing it takes exactly that table's lines out of
    the kitchen queue; the entries of the other tables stay. *)
Theorem kitchen_queue_lifecycle :
  forall db, reachable db ->
  (forall o, In o (orders db) ->
     In (o_id o, o_table_no o, o_item_name o, o_qty o, o_price o, o_timestamp o)
        (get_pending_orders db) \/
     o_status o = "prepared") /\
  (forall table_no total receipt_file now row,
     In row (get_pending_orders
               (complete_bill_and_save table_no total receipt_file now db)) <->
     In row (get_pending_orders db) /\ (let '(_, t, _, _, _, _) := row in t <> table_no)) /\
  (forall table_no row,
     In row (get_pending_orders (free_table_store table_no db)) <->
     In row (get_pending_orders db) /\ (let '(_, t, _, _, _, _) := row in t <> table_no)).
Proof.
  intros db Hr. split; [|split].
  - intros o Hin. destruct (reachable_line_status db Hr o Hin) as [Hp|Hp]; [left | now right].
    apply get_pending_orders_In. now exists o.
  - intros table_no total receipt_file now row.
    exact (pending_after_delete_table table_no
             (insert_sale table_no total (dt_strftime now) receipt_file db) row).
  - intros table_no row. exact (pending_after_delete_table table_no db row).
Qed.

Lemma kitchen_queue_lifecycle_witness :
  get_pending_orders db_kitchen =
    [(3, 2, "Veg Burger", 1, 5.0%float, "2026-11-03T12:00:00.000001");
     (2, 1, "French Fries", 1, 3.0%float, "2026-11-03T12:00:02.000001")] /\
  forall row, In row (get_pending_orders (free_table_store 1 db_kitchen)) ->
    row = (3, 2, "Veg Burger", 1, 5.0%float, "2026-11-03T12:00:00.000001").
Proof.
  assert (Hq : get_pending_orders db_kitchen =
    [(3, 2, "Veg Burger", 1, 5.0%float, "2026-11-03T12:00:00.000001");
     (2, 1, "French Fries", 1, 3.0%float, "2026-11-03T12:00:02.000001")])
    by (vm_compute; reflexivity).
  split; [exact Hq|].
  destruct (kitchen_queue_lifecycle db_kitchen db_kitchen_reachable) as [_ [_ Hfree]].
  intros row Hin. apply Hfree in Hin. destruct Hin as [Hin Hne].
  rewrite Hq in Hin. destruct Hin as [<- | [<- | []]]; [reflexivity|].
  now contradiction Hne.
Defined.

Lemma receipt_file_collision_witness :
  let r1 := generate_receipt_pdf 1 [("Coke", 2, 1.5%float, 3.0%float)] 3.0 5.0 noon noon [] in
  let r2 := generate_receipt_pdf 1 [("Veg Burger", 1, 5.0%float, 5.0%float)] 5.0 5.0
              noon noon (snd r1) in
  fst (fst r1) = fst (fst r2) /\
  read_file (fst (fst r1)) (snd r2)
    = Some (receipt_document 1 [("Veg Burger", 1, 5.0%float, 5.0%float)] 5.0 5.0 noon) /\
  List.length (snd r2) = 1%nat.
Proof.
  cbv zeta.
  destruct (receipt_file_collision 1 1 [("Coke", 2, 1.5%float, 3.0%float)]
              [("Veg Burger", 1, 5.0%float, 5.0%float)] 3.0 5.0 5.0 5.0 noon noon noon noon [])
    as [[_ Hsame] [_ [_ Hlost]]].
  split; [now apply Hsame|]. split; [apply Hlost; now apply Hsame|].
  vm_compute. reflexivity.
Defined.

(** ** Lines are listed in the order they were added *)

Lemma float_sum_snoc (xs : list float) (x : float) :
  float_sum (xs ++ [x]) = (float_sum xs + x)%float.
Proof. unfold float_sum. now rewrite fold_left_app. Qed.

(** X18.  In a reachable database a new order line goes to the end of its
    table's list: [get_orders_for_table] after AddItem is the list before
    followed by the new line.  So the subtotal [print_bill] would bill grows
    by exactly qty*price (one binary64 addition), and the lists of the other
    tables stay as they are. *)
Theorem add_item_appends_to_table_list :
  forall db table_no item_id item_name qty price now,
  reachable db ->
  let db' := add_order_item table_no item_id item_name qty price now db in
  get_orders_for_table table_no db' =
    get_orders_for_table table_no db
    ++ [(seq_orders db + 1, item_name, qty, price, "pending")] /\
  float_sum (map line_total (get_orders_for_table table_no db')) =
    (float_sum (map line_total (get_orders_for_table table_no db))
     + float_of_int qty * price)%float.
Proof.
  intros db table_no item_id item_name qty price now Hr. cbv zeta.
  assert (Hr' : reachable (add_order_item table_no item_id item_name qty price now db))
    by exact (reachable_step (AddItem table_no item_id item_name qty price now) db Hr).
  assert (Hlist : get_orders_for_table table_no
                    (add_order_item table_no item_id item_name qty price now db) =
                  get_orders_for_table table_no db
                  ++ [(seq_orders db + 1, item_name, qty, price, "pending")]).
  { rewrite !get_orders_for_table_stored_order by assumption.
    unfold orders_where_table. rewrite add_order_item_orders, filter_app. simpl.
    rewrite Z.eqb_refl, map_app. reflexivity. }
  split; [exact Hlist|].
  rewrite Hlist, map_app. simpl. apply float_sum_snoc.
Qed.

Lemma add_item_appends_to_table_list_witness :
  get_orders_for_table 1 (add_order_item 1 3 "Veg Burger" 1 5.0 noon db_kitchen) =
    [(1, "Coke", 2, 1.5%float, "prepared");
     (2, "French Fries", 1, 3.0%float, "pending");
     (4, "Veg Burger", 1, 5.0%float, "pending")].
Proof.
  destruct (add_item_appends_to_table_list db_kitchen 1 3 "Veg Burger" 1 5.0%float noon
              db_kitchen_reachable) as [Hlist _].
  rewrite Hlist. vm_compute. reflexivity.
Defined.

(** ** Preparing an item does not change the bill *)

Lemma insert_by_id_map (u : order_row -> order_row) (o : order_row) (l : list order_row) :
  (forall x, o_id (u x) = o_id x) ->
  insert_by_id (u o) (map u l) = map u (insert_by_id o l).
Proof.
  intro Hu. induction l as [|x l IH]; simpl; [reflexivity|].
  rewrite !Hu. destruct (o_id o <=? o_id x); simpl; [reflexivity | now rewrite IH].
Qed.

Lemma order_by_id_map (u : order_row -> order_row) (l : list order_row) :
  (forall x, o_id (u x) = o_id x) ->
  order_by_id (map u l) = map u (order_by_id l).
Proof.
  intro Hu. unfold order_by_id. induction l as [|x l IH]; simpl; [reflexivity|].
  now rewrite IH, insert_by_id_map.
Qed.

(** X19.  [mark_order_prepared] does not change what a table is billed: the
    table's lines keep their ids, names, quantities and prices, so line
    totals, subtotal and the rows of the receipt are the same before and
    after. *)
Theorem mark_prepared_keeps_bill :
  forall db oid table_no,
  let rows := get_orders_for_table table_no db in
  let rows' := get_orders_for_table table_no (mark_order_prepared oid db) in
  map view_row rows' = map view_row rows /\
  float_sum (map line_total rows') = float_sum (map line_total rows) /\
  flat_map receipt_line_cells rows' = flat_map receipt_line_cells rows /\
  List.length rows' = List.length rows.
Proof.
  intros db oid table_no. cbv zeta.
  set (u := fun o => if o_id o =? oid then with_status "prepared" o else o).
  assert (Hid : forall x, o_id (u x) = o_id x)
    by (intro x; unfold u; now destruct (o_id x =? oid)).
  assert (Hrows : get_orders_for_table table_no (mark_order_prepared oid db) =
                  map (fun o => (o_id o, o_item_name o, o_qty o, o_price o, o_status o))
                      (map u (order_by_id (orders_where_table table_no db)))).
  { unfold get_orders_for_table, orders_where_table. simpl. fold u.
    rewrite filter_map_stable, order_by_id_map; [reflexivity | exact Hid |].
    intro x. unfold u. now destruct (o_id x =? oid). }
  rewrite Hrows. unfold get_orders_for_table.
  assert (Hview : forall l,
            map view_row (map (fun o => (o_id o, o_item_name o, o_qty o, o_price o, o_status o))
                              (map u l))
            = map view_row (map (fun o => (o_id o, o_item_name o, o_qty o, o_price o,
                                           o_status o)) l)).
  { intro l. rewrite !map_map. apply map_ext. intro x. unfold u.
    now destruct (o_id x =? oid). }
  assert (Htot : forall l,
            map line_total (map (fun o => (o_id o, o_item_name o, o_qty o, o_price o,
                                           o_status o)) (map u l))
            = map line_total (map (fun o => (o_id o, o_item_name o, o_qty o, o_price o,
                                             o_status o)) l)).
  { intro l. rewrite !map_map. apply map_ext. intro x. unfold u.
    now destruct (o_id x =? oid). }
  split; [apply Hview|]. split; [now rewrite Htot|]. split.
  - rewrite !flat_map_concat_map, !map_map. f_equal. apply map_ext. intro x. unfold u.
    now destruct (o_id x =? oid).
  - now rewrite !length_map.
Qed.
